(** * list_pubs: rendering a BibTeX bibliography as categorised Markdown

    A shallow embedding of [scripts/list_pubs.py] and the properties its
    specification states about it.

    Modelling conventions.
    - A Python [str] is a [string]: a sequence of code points below 256.
      [str.lower], [str.strip] and the comparison of strings are the
      restrictions of Python's to that range.
    - [print] appends its argument to the list of printed strings; the
      text that reaches the output stream is each of them followed by a
      newline ([stream]).
    - A Python exception is a value [Raise e] of [result]; only its [str(e)]
      is observed by the program.
    - The file system ([os.path.exists], [open(..).readlines()], [glob.glob])
      and pybtex's [parse_string] are not part of the script: they are
      variables of the sections that embed the functions calling them. *)

From Stdlib Require Import Ascii String List Bool Arith Lia Sorted Permutation.
From stdpp Require Import base gmap strings list sorting.

Local Open Scope list_scope.

(** ** Python string operations used by the script *)

Module PyStr.

(** [c.isspace()] for a code point below 256. *)
Definition isspace (c : ascii) : bool :=
  let n := nat_of_ascii c in
  ((9 <=? n)%nat && (n <=? 13)%nat) || ((28 <=? n)%nat && (n <=? 32)%nat)
  || (n =? 133)%nat || (n =? 160)%nat.

(** [c.lower()] for a code point below 256: A-Z and the accented capitals
    of Latin-1 move up by 32, everything else is unchanged. *)
Definition lower_char (c : ascii) : ascii :=
  let n := nat_of_ascii c in
  if ((65 <=? n)%nat && (n <=? 90)%nat)
     || ((192 <=? n)%nat && (n <=? 222)%nat && negb (n =? 215)%nat)
  then ascii_of_nat (n + 32) else c.

Fixpoint lower (s : string) : string :=
  match s with
  | "" => ""
  | String c s' => String (lower_char c) (lower s')
  end.

Definition is_empty (s : string) : bool :=
  match s with "" => true | _ => false end.

(** [s.lstrip(chars)], [s.rstrip(chars)], [s.strip(chars)]: every leading
    (trailing) character of the set is removed, however many there are. *)
Fixpoint lstrip_by (p : ascii -> bool) (s : string) : string :=
  match s with
  | "" => ""
  | String c s' => if p c then lstrip_by p s' else s
  end.

Fixpoint rstrip_by (p : ascii -> bool) (s : string) : string :=
  match s with
  | "" => ""
  | String c s' =>
      let r := rstrip_by p s' in
      if p c && is_empty r then "" else String c r
  end.

Definition strip_by (p : ascii -> bool) (s : string) : string :=
  rstrip_by p (lstrip_by p s).

(** [s.strip()] *)
Definition strip (s : string) : string := strip_by isspace s.

(** [s.strip(c)] for a one-character argument. *)
Definition strip_char (c : ascii) (s : string) : string :=
  strip_by (Ascii.eqb c) s.

(** [s.startswith(pre)] *)
Fixpoint startswith (pre s : string) : bool :=
  match pre, s with
  | "", _ => true
  | String _ _, "" => false
  | String a pre', String b s' => Ascii.eqb a b && startswith pre' s'
  end.

(** [sub in s] *)
Fixpoint contains (sub s : string) : bool :=
  startswith sub s
  || match s with "" => false | String _ s' => contains sub s' end.

(** [s.split(sep, 1)] for a one-character separator: the text before the
    first separator, and the text after it when there is one. *)
Fixpoint split_first (sep : ascii) (s : string) : string * option string :=
  match s with
  | "" => ("", None)
  | String c s' =>
      if Ascii.eqb c sep then ("", Some s')
      else let '(a, b) := split_first sep s' in (String c a, b)
  end.

(** [s.split(sep)[0]] *)
Definition split_head (sep : ascii) (s : string) : string :=
  fst (split_first sep s).

(** [s.split(sep, 1)[1]]; [None] is Python's IndexError. *)
Definition split_tail (sep : ascii) (s : string) : option string :=
  snd (split_first sep s).

(** [s.replace(old, new)]: the occurrences of [old] are found from left to
    right without overlap.  [skip] counts the characters of an occurrence
    that are still to be passed over. *)
Fixpoint replace_go (old new : string) (skip : nat) (s : string) : string :=
  match s with
  | "" => ""
  | String c s' =>
      match skip with
      | S k => replace_go old new k s'
      | O =>
          if startswith old s
          then new +:+ replace_go old new (String.length old - 1) s'
          else String c (replace_go old new 0 s')
      end
  end.

Fixpoint interleave (new s : string) : string :=
  match s with
  | "" => ""
  | String c s' => String c (new +:+ interleave new s')
  end.

Definition replace (old new s : string) : string :=
  match old with
  | "" => new +:+ interleave new s
  | _ => replace_go old new 0 s
  end.

(** [sep.join(ls)] *)
Fixpoint join (sep : string) (ls : list string) : string :=
  match ls with
  | [] => ""
  | [x] => x
  | x :: xs => x +:+ sep +:+ join sep xs
  end.

(** [c in s] for a single character. *)
Fixpoint has_char (c : ascii) (s : string) : bool :=
  match s with
  | "" => false
  | String a s' => Ascii.eqb a c || has_char c s'
  end.

(** Every character of [s] satisfies [p]. *)
Fixpoint all_chars (p : ascii -> bool) (s : string) : bool :=
  match s with
  | "" => true
  | String a s' => p a && all_chars p s'
  end.

(** [s[0]] and [s[-1]], when [s] is not empty. *)
Definition first_char (s : string) : option ascii :=
  match s with "" => None | String a _ => Some a end.

Fixpoint last_char (s : string) : option ascii :=
  match s with
  | "" => None
  | String a s' => match last_char s' with Some b => Some b | None => Some a end
  end.

(** The characters of [s] that satisfy [p], in their order. *)
Fixpoint filter_chars (p : ascii -> bool) (s : string) : string :=
  match s with
  | "" => ""
  | String a s' => if p a then String a (filter_chars p s') else filter_chars p s'
  end.

(** [s] is not empty and neither its first nor its last character
    satisfies [p]. *)
Definition ends_clear (p : ascii -> bool) (s : string) : Prop :=
  (exists c, first_char s = Some c /\ p c = false)
  /\ (exists c, last_char s = Some c /\ p c = false).

(** [t] is [s] without the longest run of characters satisfying [p] at
    each of its ends. *)
Definition stripped_of (p : ascii -> bool) (s t : string) : Prop :=
  exists l r,
    s = l +:+ t +:+ r
    /\ all_chars p l = true /\ all_chars p r = true
    /\ (forall c, first_char t = Some c -> p c = false)
    /\ (forall c, last_char t = Some c -> p c = false).

End PyStr.

(** The newline character and the one-character string ["\n"]. *)
Definition nl_char : ascii := "010"%char.
Definition nl : string := String nl_char "".

(** ** Exceptions *)

(** A raised exception, observed through [str(e)] only. *)
Record PyException := { exc_str : string }.

Inductive result (A : Type) : Type :=
| Ok (a : A)
| Raise (e : PyException).
Arguments Ok {A} a.
Arguments Raise {A} e.

(** ** The parsed bibliography (pybtex's [BibliographyData])

    [fields] is keyed by the field name in lower case (pybtex's field
    dictionary is case-insensitive), [persons] by role; [entries] keeps the
    order of the file, as the ordered dictionary of pybtex does. *)

Record Person := {
  first_names : list string;
  last_names : list string
}.

Record Entry := {
  type_ : string;
  fields : gmap string string;
  persons : gmap string (list Person)
}.

Record BibliographyData := {
  entries : list (string * Entry)
}.

(** [d.get(k, default)] *)
Definition dict_get {V} (d : gmap string V) (k : string) (dflt : V) : V :=
  default dflt (d !! k).

(** ** The sanitizer: [clean_and_parse] *)

Module Sanitizer.

(** The three variables the loop of [clean_and_parse] updates. *)
Record state := {
  cleaned_lines : list string;
  seen_fields : gset string;
  inside_entry : bool
}.

Definition init : state :=
  {| cleaned_lines := []; seen_fields := ∅; inside_entry := false |}.

(** [line.strip().lower()] *)
Definition stripped (line : string) : string := PyStr.lower (PyStr.strip line).

(** [stripped.startswith("@")] *)
Definition starts_entry (line : string) : bool :=
  PyStr.startswith "@" (stripped line).

(** [stripped.split("=")[0].strip()] *)
Definition field_part (line : string) : string :=
  PyStr.strip (PyStr.split_head "="%char (stripped line)).

(** One iteration of [for line in lines]. *)
Definition step (st : state) (line : string) : state :=
  if starts_entry line then
    {| cleaned_lines := cleaned_lines st ++ [line];
       seen_fields := ∅;
       inside_entry := true |}
  else if inside_entry st && PyStr.contains "=" (stripped line) then
    if String.eqb (field_part line) "doi" then
      if decide ("doi" ∈ seen_fields st) then st
      else {| cleaned_lines := cleaned_lines st ++ [line];
              seen_fields := seen_fields st ∪ {["doi"]};
              inside_entry := inside_entry st |}
    else {| cleaned_lines := cleaned_lines st ++ [line];
            seen_fields := seen_fields st;
            inside_entry := inside_entry st |}
  else {| cleaned_lines := cleaned_lines st ++ [line];
          seen_fields := seen_fields st;
          inside_entry := inside_entry st |}.

Definition run (st : state) (lines : list string) : state :=
  fold_left step lines st.

(** The lines that reach the parser. *)
Definition sanitize (lines : list string) : list string :=
  cleaned_lines (run init lines).

(** The text handed to [parse_string]: ["\n".join(cleaned_lines)]. *)
Definition cleaned_text (lines : list string) : string :=
  PyStr.join nl (sanitize lines).

(** A doi field line: not the start of an entry, with an ['='] and the
    trimmed text before the first ['='] equal to ["doi"]. *)
Definition is_doi_line (line : string) : bool :=
  negb (starts_entry line)
  && PyStr.contains "=" (stripped line)
  && String.eqb (field_part line) "doi".

Global Arguments stripped : simpl never.
Global Arguments starts_entry : simpl never.
Global Arguments field_part : simpl never.
Global Arguments is_doi_line : simpl never.

(** Whether ["doi"] is in [seen_fields]. *)
Definition doi_seen (st : state) : bool := bool_decide ("doi" ∈ seen_fields st).

(** No line of [lines] starts an entry. *)
Definition no_entry_start (lines : list string) : bool :=
  forallb (fun l => negb (starts_entry l)) lines.

Definition not_doi (line : string) : bool := negb (is_doi_line line).

(** The loop read as a function of the lines still to come: the lines it
    will append, given whether ["doi"] is in [seen_fields] and the value of
    [inside_entry].  [run_kept] below shows that this is what [run] does. *)
Fixpoint kept (seen inside : bool) (lines : list string) : list string :=
  match lines with
  | [] => []
  | line :: rest =>
      if starts_entry line then line :: kept false true rest
      else if inside && PyStr.contains "=" (stripped line)
              && String.eqb (field_part line) "doi"
      then if seen then kept seen inside rest
           else line :: kept true inside rest
      else line :: kept seen inside rest
  end.

Section WithParser.
Variable readlines : string -> result (list string).
Variable parse_string : string -> result BibliographyData.

(** [clean_and_parse(filename)]: an exception of [open] or of the parser
    leaves the function. *)
Definition clean_and_parse (filename : string) : result BibliographyData :=
  match readlines filename with
  | Raise e => Raise e
  | Ok lines => parse_string (cleaned_text lines)
  end.
End WithParser.

End Sanitizer.

(** ** The renderer: [render_pubs] *)

Module Renderer.

(** The [categories] dictionary, in its insertion order. *)
Definition categories : list (string * list string) :=
  [ ("Journal Articles", ["article"]);
    ("Conference Papers", ["inproceedings"; "proceedings"]);
    ("Books and Chapters", ["book"; "incollection"]);
    ("Theses", ["phdthesis"; "mastersthesis"]) ].

(** [x in types] for a list of strings. *)
Definition in_list (x : string) (l : list string) : bool :=
  existsb (String.eqb x) l.

(** The sort key: [x[1].fields.get('year', '0000')]. *)
Definition sort_key (x : string * Entry) : string :=
  dict_get (fields (snd x)) "year" "0000".

(** [sorted(l, key=key, reverse=True)]: a stable sort into descending order
    of the keys; among equal keys the order of [l] is kept.  [insert_desc]
    puts [x], which stood before every element of [l], in front of the
    first element whose key is not greater than its own. *)
Fixpoint insert_desc {A} (key : A -> string) (x : A) (l : list A) : list A :=
  match l with
  | [] => [x]
  | y :: ys =>
      if String.ltb (key x) (key y) then y :: insert_desc key x ys
      else x :: l
  end.

(** [x] may stand before [y] when the keys are to descend. *)
Definition key_ge {A} (key : A -> string) (x y : A) : Prop :=
  String.le (key y) (key x).

Definition sorted_desc {A} (key : A -> string) (l : list A) : list A :=
  foldr (insert_desc key) [] l.

Definition all_entries (bib_data : BibliographyData) : list (string * Entry) :=
  sorted_desc sort_key (entries bib_data).

(** [[e for e in all_entries if e[1].type.lower() in types]] *)
Definition in_category (types : list string) (e : string * Entry) : bool :=
  in_list (PyStr.lower (type_ (snd e))) types.

Definition cat_entries (types : list string) (all : list (string * Entry))
  : list (string * Entry) :=
  List.filter (in_category types) all.

Definition year_of (entry : Entry) : string :=
  dict_get (fields entry) "year" "n.d.".

Definition title_of (entry : Entry) : string :=
  PyStr.replace "}" "" (PyStr.replace "{" "" (dict_get (fields entry) "title" "Untitled")).

Definition venue_of (entry : Entry) : string :=
  dict_get (fields entry) "journal"
    (dict_get (fields entry) "booktitle"
       (dict_get (fields entry) "publisher"
          (dict_get (fields entry) "school" "Preprint"))).

Definition doi_prefix : string := "https://doi.org/".

(** The target of the link: the text after ["[[Link]("]. *)
Definition doi_target (doi : string) : string :=
  "https://doi.org/" +:+ PyStr.replace doi_prefix "" doi.

Definition doi_link (doi : string) : string :=
  if PyStr.is_empty doi then ""
  else " [[Link](" +:+ doi_target doi +:+ ")]".

Definition doi_str (entry : Entry) : string :=
  doi_link (dict_get (fields entry) "doi" "").

(** Truth value of [author_highlight]: [None] and the empty string are
    false. *)
Definition truthy (author_highlight : option string) : bool :=
  match author_highlight with
  | Some h => negb (PyStr.is_empty h)
  | None => false
  end.

(** The name before the highlight test. *)
Definition plain_name (person : Person) : string :=
  let fname := hd "" (first_names person) in
  let lname := hd "" (last_names person) in
  PyStr.strip (fname +:+ " " +:+ lname).

(** [author_highlight and author_highlight in name]: the substring test
    is made only when [author_highlight] is true. *)
Definition highlighted (author_highlight : option string) (name : string) : bool :=
  truthy author_highlight
  && match author_highlight with
     | Some h => PyStr.contains h name
     | None => false
     end.

Definition format_name (author_highlight : option string) (person : Person) : string :=
  let name := plain_name person in
  if highlighted author_highlight name then "**" +:+ name +:+ "**" else name.

Definition author_str (author_highlight : option string) (entry : Entry) : string :=
  PyStr.join ", "
    (map (format_name author_highlight) (dict_get (persons entry) "author" [])).

(** The line printed for one entry. *)
Definition entry_line (author_highlight : option string) (e : string * Entry) : string :=
  let entry := snd e in
  "1. " +:+ author_str author_highlight entry +:+ " (" +:+ year_of entry
  +:+ "). **" +:+ title_of entry +:+ ".** *" +:+ venue_of entry +:+ "*."
  +:+ doi_str entry.

Definition heading (cat_name : string) : string := "### " +:+ cat_name.

(** What one iteration of the loop over the categories prints. *)
Definition render_category (author_highlight : option string)
    (all : list (string * Entry)) (cat : string * list string) : list string :=
  match cat_entries (snd cat) all with
  | [] => []
  | es => heading (fst cat) :: map (entry_line author_highlight) es ++ [nl]
  end.

(** The part of [render_pubs] after the parse. *)
Definition render_bib (author_highlight : option string)
    (bib_data : BibliographyData) : list string :=
  concat (map (render_category author_highlight (all_entries bib_data)) categories).

Definition missing_file_message (bib_file : string) : string :=
  "**Error:** Could not find bibliography file: `" +:+ bib_file +:+ "`".

Definition parse_error_message (e : PyException) : string :=
  "**Error parsing bib file:** " +:+ exc_str e.

Section WithWorld.
Variable path_exists : string -> bool.
Variable readlines : string -> result (list string).
Variable parse_string : string -> result BibliographyData.

(** [render_pubs(bib_file, author_highlight)]: the strings printed, in
    order.  The function has no other result and lets no exception of
    its [try] block escape. *)
Definition render_pubs (bib_file : string) (author_highlight : option string)
  : list string :=
  if negb (path_exists bib_file) then [missing_file_message bib_file]
  else
    match Sanitizer.clean_and_parse readlines parse_string bib_file with
    | Raise e => [parse_error_message e]
    | Ok bib_data => render_bib author_highlight bib_data
    end.
End WithWorld.

(** The characters written to the output stream by a sequence of
    [print] calls. *)
Definition stream (printed : list string) : string :=
  foldr (fun s acc => s +:+ nl +:+ acc) "" printed.

(** A brace of BibTeX grouping. *)
Definition is_brace (c : ascii) : bool :=
  Ascii.eqb "{"%char c || Ascii.eqb "}"%char c.

(** Some category accepts the type of the entry. *)
Definition categorised (e : string * Entry) : bool :=
  existsb (fun cat => in_category (snd cat) e) categories.

(** The entries in the order in which their lines are printed: category
    after category. *)
Definition listed (bib_data : BibliographyData) : list (string * Entry) :=
  concat (map (fun cat => cat_entries (snd cat) (all_entries bib_data)) categories).

(** A printed string that begins like the line of an entry. *)
Definition is_entry_line (printed : string) : bool :=
  PyStr.startswith "1. " printed.

End Renderer.

(** ** Page context: [get_current_page_title] and [render_auto] *)

Module PageContext.

Definition dquote : ascii := "034"%char.
Definition squote : ascii := "039"%char.

(** The returned expression: the text after the first colon of the line,
    then [strip()], then [strip] of the double quote, then [strip] of the
    single quote. *)
Definition title_value (line : string) : result string :=
  match PyStr.split_tail ":"%char line with
  | None => Raise {| exc_str := "list index out of range" |}
  | Some rest =>
      Ok (PyStr.strip_char squote (PyStr.strip_char dquote (PyStr.strip rest)))
  end.

(** [line.strip().startswith("title:")] *)
Definition is_title_line (line : string) : bool :=
  PyStr.startswith "title:" (PyStr.strip line).

(** The loop over the lines of the file. *)
Fixpoint scan_title (lines : list string) : result (option string) :=
  match lines with
  | [] => Ok None
  | line :: rest =>
      if is_title_line line then
        match title_value line with
        | Ok t => Ok (Some t)
        | Raise e => Raise e
        end
      else scan_title rest
  end.

Section WithWorld.
Variable glob : string -> list string.
Variable path_exists : string -> bool.
Variable readlines : string -> result (list string).
Variable parse_string : string -> result BibliographyData.

Definition get_current_page_title : result (option string) :=
  match glob "*.qmd" with
  | [] => Ok None
  | target_file :: _ =>
      match readlines target_file with
      | Raise e => Raise e
      | Ok lines => scan_title lines
      end
  end.

(** [render_auto()]: the strings printed, or the exception of
    [get_current_page_title]. *)
Definition render_auto : result (list string) :=
  match get_current_page_title with
  | Raise e => Raise e
  | Ok clean_name =>
      match glob "*.bib" with
      | [] => Ok ["*No bibliography found in this folder.*"]
      | bib_files =>
          Ok (concat (map (fun bib =>
                 Renderer.render_pubs path_exists readlines parse_string
                   bib clean_name) bib_files))
      end
  end.
End WithWorld.

(** A character that none of the three [strip] calls removes. *)
Definition plain_end (c : ascii) : bool :=
  negb (PyStr.isspace c) && negb (Ascii.eqb dquote c) && negb (Ascii.eqb squote c).

End PageContext.

(** ** The specification's words

    Definitions that follow the wording of the specification, for
    comparison with the functions above. *)

Module SpecWords.

(** At most one character [c] taken from each end of [s]. *)
Definition lstrip_one (c : ascii) (s : string) : string :=
  match s with
  | "" => ""
  | String a s' => if Ascii.eqb a c then s' else s
  end.

Fixpoint rstrip_one (c : ascii) (s : string) : string :=
  match s with
  | "" => ""
  | String a "" => if Ascii.eqb a c then "" else s
  | String a s' => String a (rstrip_one c s')
  end.

Definition strip_one (c : ascii) (s : string) : string :=
  rstrip_one c (lstrip_one c s).

(** The first category, in the fixed order, whose accepted types contain
    the type tag [t]. *)
Definition category_of (t : string) : option (string * list string) :=
  List.find (fun cat => Renderer.in_list t (snd cat)) Renderer.categories.

(** The value of the first field of [names] that is present. *)
Fixpoint first_present (names : list string) (d : gmap string string)
  : option string :=
  match names with
  | [] => None
  | k :: rest =>
      match d !! k with
      | Some v => Some v
      | None => first_present rest d
      end
  end.

End SpecWords.

(** * Concrete inputs *)

(** An export that repeats the title as well as the doi. *)
Definition repeated_title_export : list string :=
  [ "@article{k," +:+ nl;
    "  title = {A}," +:+ nl;
    "  title = {B}," +:+ nl;
    "  doi = {a}," +:+ nl;
    "  doi = {b}" +:+ nl;
    "}" +:+ nl ].

(** A parser that rejects its text, as pybtex rejects a text in which an
    entry repeats a field. *)
Definition rejecting_parser (text : string) : result BibliographyData :=
  Raise {| exc_str := "entry with key k has a duplicate title field" |}.

(** An export with a repeated doi field, and a doi line between two
    entries. *)
Definition zotero_export : list string :=
  [ "@article{doe2020," +:+ nl;
    "  title = {A {Study}}," +:+ nl;
    "  DOI = {10.1/xyz}," +:+ nl;
    "  year = {2020}," +:+ nl;
    "  doi = {10.1/other}," +:+ nl;
    "}" +:+ nl;
    "doi = {stray}" +:+ nl;
    "@book{roe," +:+ nl;
    "  doi = {10.2/b}" +:+ nl;
    "}" +:+ nl ].

(** The bibliography of the end-to-end scenario: one article by Jane Doe. *)
Definition jane_doe : Person :=
  {| first_names := ["Jane"]; last_names := ["Doe"] |}.

Definition doe2020 : Entry :=
  {| type_ := "article";
     fields := list_to_map [ ("year", "2020"); ("title", "A {Study}");
                             ("journal", "Nature"); ("doi", "10.1/xyz") ];
     persons := {[ "author" := [jane_doe] ]} |}.

Definition one_article_bib : BibliographyData :=
  {| entries := [("doe2020", doe2020)] |}.

Definition one_article_source : list string :=
  [ "@article{doe2020," +:+ nl;
    "  author = {Doe, Jane}," +:+ nl;
    "  title = {A {Study}}," +:+ nl;
    "  journal = {Nature}," +:+ nl;
    "  year = {2020}," +:+ nl;
    "  doi = {10.1/xyz}" +:+ nl;
    "}" +:+ nl ].

(** A directory that holds the file above as [refs.bib], and the parser's
    result on it. *)
Definition one_article_exists (path : string) : bool := String.eqb path "refs.bib".

Definition one_article_readlines (path : string) : result (list string) :=
  if String.eqb path "refs.bib" then Ok one_article_source
  else Raise {| exc_str := "No such file or directory" |}.

Definition one_article_parser (text : string) : result BibliographyData :=
  Ok one_article_bib.

(** An empty directory. *)
Definition nothing_exists (path : string) : bool := false.

Definition nothing_readable (path : string) : result (list string) :=
  Raise {| exc_str := "No such file or directory" |}.

(** A directory whose [refs.bib] is [repeated_title_export]. *)
Definition repeated_title_readlines (path : string) : result (list string) :=
  Ok repeated_title_export.

(** Entries with a doi that holds the resolver's address after a label,
    and with an empty journal next to a book title. *)
Definition labelled_doi_entry : Entry :=
  {| type_ := "article";
     fields := {[ "doi" := "doi:https://doi.org/10.1/x" ]};
     persons := ∅ |}.

Definition prefixed_doi_entry : Entry :=
  {| type_ := "article";
     fields := {[ "doi" := "https://doi.org/10.1/x" ]};
     persons := ∅ |}.

Definition empty_journal_entry : Entry :=
  {| type_ := "inproceedings";
     fields := list_to_map [ ("journal", ""); ("booktitle", "Proceedings of X") ];
     persons := ∅ |}.

(** Three entries: one of 2019, one without a year, one of 2021. *)
Definition entry_of_year (kind : string) (year : option string) : Entry :=
  {| type_ := kind;
     fields := match year with Some y => {[ "year" := y ]} | None => ∅ end;
     persons := ∅ |}.

Definition three_entries_bib : BibliographyData :=
  {| entries := [ ("a", entry_of_year "article" (Some "2019"));
                  ("b", entry_of_year "Book" None);
                  ("c", entry_of_year "misc" (Some "2021")) ] |}.

(** A page whose title is wrapped in single quotes, and one whose title is
    wrapped in two layers of double quotes. *)
Definition quoted_page : list string :=
  [ "---" +:+ nl;
    "title: " +:+ String PageContext.squote
      ("Jane Doe" +:+ String PageContext.squote nl);
    "---" +:+ nl ].

Definition double_quoted_line : string :=
  "title: " +:+ String PageContext.dquote (String PageContext.dquote
    ("Hello" +:+ String PageContext.dquote (String PageContext.dquote nl))).

Definition double_quoted_page : list string :=
  [ "---" +:+ nl; double_quoted_line; "---" +:+ nl ].

Definition one_page_glob (pattern : string) : list string :=
  if String.eqb pattern "*.qmd" then ["index.qmd"] else [].

(** A page whose title is indented and wrapped in double quotes around
    single quotes. *)
Definition nested_quotes_page : list string :=
  [ "---" +:+ nl;
    "  title: " +:+ String PageContext.dquote (String PageContext.squote
      ("Jane Doe" +:+ String PageContext.squote (String PageContext.dquote nl)));
    "title: Somebody Else" +:+ nl;
    "---" +:+ nl ].

(** A directory with one page and two bibliography files, the first of
    which does not exist any more when it is rendered. *)
Definition two_bib_glob (pattern : string) : list string :=
  if String.eqb pattern "*.qmd" then ["index.qmd"]
  else if String.eqb pattern "*.bib" then ["gone.bib"; "refs.bib"]
  else [].

Definition two_bib_readlines (path : string) : result (list string) :=
  if String.eqb path "index.qmd" then Ok quoted_page
  else one_article_readlines path.


(** * Checks on concrete inputs *)

Example lower_ex : PyStr.lower "  DOI = {X}" = "  doi = {x}".
Proof. reflexivity. Qed.

Example strip_ex : PyStr.strip "  doi = 1 " = "doi = 1".
Proof. reflexivity. Qed.

Example replace_ex : PyStr.replace "ab" "-" "xabaabb" = "x-a-b".
Proof. reflexivity. Qed.

Example replace_empty_ex : PyStr.replace "" "-" "abc" = "-a-b-c-".
Proof. reflexivity. Qed.

Example sanitize_zotero :
  Sanitizer.sanitize zotero_export =
  [ "@article{doe2020," +:+ nl;
    "  title = {A {Study}}," +:+ nl;
    "  DOI = {10.1/xyz}," +:+ nl;
    "  year = {2020}," +:+ nl;
    "}" +:+ nl;
    "@book{roe," +:+ nl;
    "  doi = {10.2/b}" +:+ nl;
    "}" +:+ nl ].
Proof. vm_compute. reflexivity. Qed.

(** * Facts about the string operations *)

Section PyStrFacts.
Import PyStr.

Lemma append_cons c s r : String c s +:+ r = String c (s +:+ r).
Proof. reflexivity. Qed.

Lemma append_nil_r s : s +:+ "" = s.
Proof. induction s as [|c s IH]; [done|]. by rewrite append_cons, IH. Qed.

Lemma startswith_nil pre : startswith "" pre = true.
Proof. by destruct pre. Qed.

Lemma startswith_append pre r : startswith pre (pre +:+ r) = true.
Proof.
  induction pre as [|c pre IH]; [apply startswith_nil|].
  rewrite append_cons. cbn. by rewrite Ascii.eqb_refl.
Qed.

(** The empty string is found in every string. *)
Lemma contains_nil s : contains "" s = true.
Proof. destruct s; reflexivity. Qed.

Lemma contains_cons sub c s :
  contains sub (String c s) = startswith sub (String c s) || contains sub s.
Proof. reflexivity. Qed.

(** *** [replace] *)

Lemma replace_go_skip old new s1 r :
  replace_go old new (String.length s1) (s1 +:+ r) = replace_go old new 0 r.
Proof. induction s1 as [|c s1 IH]; [done|]. rewrite append_cons. exact IH. Qed.

Lemma replace_go_absent old new s :
  contains old s = false -> replace_go old new 0 s = s.
Proof.
  induction s as [|c s IH]; [done|].
  rewrite contains_cons. intros [Hs Hc]%orb_false_iff.
  cbn [replace_go]. rewrite Hs. by rewrite IH.
Qed.

(** A string without an occurrence of [old] is returned as it is. *)
Lemma replace_absent old new s :
  contains old s = false -> replace old new s = s.
Proof.
  destruct old as [|a old]; [by rewrite contains_nil|].
  apply replace_go_absent.
Qed.

(** A leading occurrence is replaced and the scan goes on after it. *)
Lemma replace_prefix old new r :
  old <> "" -> replace old new (old +:+ r) = new +:+ replace old new r.
Proof.
  destruct old as [|a old]; [done|]. intros _.
  unfold replace. rewrite append_cons. cbn [replace_go].
  rewrite <- (append_cons a old r), startswith_append.
  replace (String.length (String a old) - 1) with (String.length old)
    by (cbn [String.length]; lia).
  by rewrite replace_go_skip.
Qed.

End PyStrFacts.

(** * The sanitizer *)

Section SanitizerFacts.
Import Sanitizer.

Lemma run_cons st line lines : run st (line :: lines) = run (step st line) lines.
Proof. reflexivity. Qed.

(** [run] appends to [cleaned_lines] exactly the lines [kept] lists. *)
Lemma run_kept lines : forall st,
  cleaned_lines (run st lines)
  = cleaned_lines st ++ kept (doi_seen st) (inside_entry st) lines.
Proof.
  induction lines as [|line rest IH]; intros st.
  - cbn. by rewrite app_nil_r.
  - rewrite run_cons, IH. cbn [kept]. unfold step, doi_seen.
    destruct (starts_entry line) eqn:Hat; cbn.
    { by rewrite <- app_assoc. }
    destruct (inside_entry st) eqn:Hin; cbn.
    2:{ by rewrite <- app_assoc. }
    destruct (PyStr.contains "=" (stripped line)) eqn:Heq; cbn.
    2:{ by rewrite <- app_assoc. }
    destruct (String.eqb (field_part line) "doi") eqn:Hdoi; cbn.
    2:{ by rewrite <- app_assoc. }
    destruct (decide ("doi" ∈ seen_fields st)) as [Hseen|Hseen].
    + rewrite bool_decide_true by done. by rewrite Hin.
    + rewrite (bool_decide_false _ Hseen). cbn.
      rewrite bool_decide_true by set_solver. by rewrite <- app_assoc.
Qed.

Lemma sanitize_kept lines : sanitize lines = kept false false lines.
Proof. unfold sanitize. by rewrite run_kept. Qed.

(** The flag is only ever set. *)
Lemma inside_entry_step st line :
  inside_entry (step st line) = inside_entry st || starts_entry line.
Proof.
  unfold step. destruct (starts_entry line); cbn.
  { by rewrite orb_true_r. }
  rewrite orb_false_r.
  repeat (match goal with |- context [if ?b then _ else _] => destruct b end; cbn);
    reflexivity.
Qed.

Lemma inside_entry_run lines : forall st,
  inside_entry (run st lines) = inside_entry st || existsb starts_entry lines.
Proof.
  induction lines as [|line rest IH]; intros st; cbn [existsb].
  - by rewrite orb_false_r.
  - rewrite run_cons, IH, inside_entry_step. by rewrite orb_assoc.
Qed.

(** A line that starts an entry makes what came before irrelevant. *)
Lemma kept_entry_start seen inside pre h rest :
  starts_entry h = true ->
  kept seen inside (pre ++ h :: rest)
  = kept seen inside pre ++ h :: kept false true rest.
Proof.
  intros Hh. revert seen inside.
  induction pre as [|l pre IH]; intros seen inside; cbn [kept app].
  - by rewrite Hh.
  - repeat (match goal with |- context [if ?b then _ else _] => destruct b end;
            cbn [app]); rewrite ?IH; reflexivity.
Qed.

Lemma kept_at_boundary seen inside post :
  (post = [] \/ exists h post', post = h :: post' /\ starts_entry h = true) ->
  kept seen inside post = kept false false post.
Proof.
  intros [->|(h & post' & -> & Hh)]; [done|].
  cbn [kept]. by rewrite Hh.
Qed.

(** Inside an entry and before its first doi line, every line is kept. *)
Lemma kept_before_doi b1 rest :
  no_entry_start b1 = true ->
  forallb not_doi b1 = true ->
  kept false true (b1 ++ rest) = b1 ++ kept false true rest.
Proof.
  induction b1 as [|l b1 IH]; [done|].
  cbn. intros [Hl Hb1]%andb_true_iff [Hd Hd1]%andb_true_iff.
  unfold not_doi, is_doi_line in Hd.
  destruct (starts_entry l); [done|]. cbn in Hd.
  destruct (_ && _) eqn:E in Hd; [done|]. cbn. rewrite E.
  by rewrite IH.
Qed.

(** Once a doi line of the entry was kept, the later ones are dropped and
    every other line is kept. *)
Lemma kept_after_doi b2 rest :
  no_entry_start b2 = true ->
  kept true true (b2 ++ rest) = List.filter not_doi b2 ++ kept true true rest.
Proof.
  induction b2 as [|l b2 IH]; [done|].
  cbn. intros [Hl Hb2]%andb_true_iff.
  unfold not_doi at 1, is_doi_line.
  destruct (starts_entry l); [done|]. cbn.
  destruct (_ && _); cbn; by rewrite IH.
Qed.

Lemma kept_first_doi d rest :
  is_doi_line d = true ->
  kept false true (d :: rest) = d :: kept true true rest.
Proof.
  unfold is_doi_line. cbn.
  destruct (starts_entry d); [done|]. cbn. by intros ->.
Qed.

Lemma step_drops_doi st line :
  inside_entry st = true -> "doi" ∈ seen_fields st ->
  is_doi_line line = true -> step st line = st.
Proof.
  unfold is_doi_line, step. intros Hin Hseen.
  destruct (starts_entry line); [done|]. cbn. rewrite Hin. cbn.
  intros [-> ->]%andb_true_iff. by rewrite decide_True.
Qed.

(** A further doi line after a kept one changes nothing. *)
Lemma kept_stray_doi mid l post : forall seen,
  no_entry_start mid = true ->
  seen || existsb is_doi_line mid = true ->
  is_doi_line l = true ->
  kept seen true (mid ++ l :: post) = kept seen true (mid ++ post).
Proof.
  induction mid as [|m mid IH]; intros seen Hmid Hseen Hl.
  - cbn in Hseen. rewrite orb_false_r in Hseen. subst seen.
    cbn [app kept]. unfold is_doi_line in Hl.
    destruct (starts_entry l); [done|]. cbn in Hl. cbn. by rewrite Hl.
  - cbn in Hmid. apply andb_true_iff in Hmid as [Hm Hmid].
    cbn [app kept existsb] in *. unfold is_doi_line in Hseen at 1.
    destruct (starts_entry m); [done|]. cbn in *.
    destruct (_ && _); cbn in *.
    + destruct seen; cbn in *; [|f_equal]; by apply IH.
    + f_equal. by apply IH.
Qed.

(** Sanitizing twice is sanitizing once. *)
Lemma kept_idempotent lines : forall seen inside,
  kept seen inside (kept seen inside lines) = kept seen inside lines.
Proof.
  induction lines as [|l lines IH]; intros seen inside; [done|].
  cbn [kept]. destruct (starts_entry l) eqn:Hat.
  { cbn [kept]. by rewrite Hat, IH. }
  destruct (inside && PyStr.contains "=" (stripped l)
            && String.eqb (field_part l) "doi") eqn:Hdoi.
  - destruct seen; [apply IH|].
    cbn [kept]. by rewrite Hat, Hdoi, IH.
  - cbn [kept]. by rewrite Hat, Hdoi, IH.
Qed.

Lemma sanitize_idempotent lines : sanitize (sanitize lines) = sanitize lines.
Proof. rewrite !sanitize_kept. apply kept_idempotent. Qed.

End SanitizerFacts.

(** ** Claims about the sanitizer *)

(** C1, as amended.  In a file [pre ++ h :: b1 ++ d :: b2 ++ post] where [h]
    starts an entry, no line of the body [b1 ++ d :: b2] starts one, [d] is
    the first doi field line of the body and [post] is empty or begins with
    the next entry: the sanitizer keeps [d], drops every doi field line of
    [b2] and keeps every other line of the entry unchanged and in order; the
    lines before and after the entry are treated as they are on their own;
    [seen_fields] is empty after the line that starts the entry; and
    [clean_and_parse] returns whatever the parser returns on the kept lines
    joined by newlines, be it a bibliography or an exception, which is also
    what it returns for a file that holds the kept lines only. *)
Theorem C1_first_doi_line_of_entry_kept
    (pre b1 b2 post : list string) (h d : string) :
  Sanitizer.starts_entry h = true ->
  Sanitizer.no_entry_start (b1 ++ d :: b2) = true ->
  forallb Sanitizer.not_doi b1 = true ->
  Sanitizer.is_doi_line d = true ->
  (post = [] \/
   exists h' post', post = h' :: post' /\ Sanitizer.starts_entry h' = true) ->
  let lines := pre ++ h :: b1 ++ d :: b2 ++ post in
  let out := Sanitizer.sanitize pre
             ++ h :: b1 ++ d :: List.filter Sanitizer.not_doi b2
             ++ Sanitizer.sanitize post in
  Sanitizer.sanitize lines = out
  /\ (forall st, Sanitizer.seen_fields (Sanitizer.step st h) = ∅)
  /\ (forall readlines parse_string filename,
         readlines filename = Ok lines ->
         Sanitizer.clean_and_parse readlines parse_string filename
         = parse_string (PyStr.join nl out))
  /\ (forall readlines parse_string filename filename',
         readlines filename = Ok lines ->
         readlines filename' = Ok out ->
         Sanitizer.clean_and_parse readlines parse_string filename
         = Sanitizer.clean_and_parse readlines parse_string filename').
Proof.
  intros Hh Hbody Hb1 Hd Hpost lines out.
  assert (Hsan : Sanitizer.sanitize lines = out).
  { subst lines out. rewrite !sanitize_kept.
    unfold Sanitizer.no_entry_start in Hbody.
    rewrite forallb_app in Hbody. cbn [forallb] in Hbody.
    apply andb_true_iff in Hbody as [Hn1 [_ Hn2]%andb_true_iff].
    rewrite kept_entry_start by done.
    rewrite kept_before_doi by done.
    rewrite kept_first_doi by done.
    rewrite kept_after_doi by done.
    rewrite (kept_at_boundary true true post) by done.
    reflexivity. }
  split; [exact Hsan|]. split; [|split].
  - intros st. unfold Sanitizer.step. by rewrite Hh.
  - intros readlines parse_string filename Hread.
    unfold Sanitizer.clean_and_parse, Sanitizer.cleaned_text.
    by rewrite Hread, Hsan.
  - intros readlines parse_string filename filename' Hread Hread'.
    unfold Sanitizer.clean_and_parse, Sanitizer.cleaned_text.
    rewrite Hread, Hread', <- Hsan. by rewrite sanitize_idempotent.
Qed.

(** C9.  The flag [inside_entry] is set by a line that starts an entry and
    no line clears it: after any lines it holds iff it held before or one of
    them started an entry.  Hence a doi field line is dropped whenever the
    flag is set and ["doi"] is in [seen_fields], wherever the line stands;
    in particular a doi field line [l] that follows an entry line [h] and
    lines [mid] with a doi field line and no entry start among them (a
    closing brace may be one of them) is dropped. *)
Theorem C9_inside_entry_never_cleared :
  (forall st lines,
      Sanitizer.inside_entry (Sanitizer.run st lines)
      = Sanitizer.inside_entry st || existsb Sanitizer.starts_entry lines)
  /\ (forall st line,
         Sanitizer.inside_entry st = true -> "doi" ∈ Sanitizer.seen_fields st ->
         Sanitizer.is_doi_line line = true -> Sanitizer.step st line = st)
  /\ (forall pre h mid l post,
         Sanitizer.starts_entry h = true ->
         Sanitizer.no_entry_start mid = true ->
         existsb Sanitizer.is_doi_line mid = true ->
         Sanitizer.is_doi_line l = true ->
         Sanitizer.sanitize (pre ++ h :: mid ++ l :: post)
         = Sanitizer.sanitize (pre ++ h :: mid ++ post)).
Proof.
  split; [|split].
  - intros st lines. apply inside_entry_run.
  - apply step_drops_doi.
  - intros pre h mid l post Hh Hmid Hdoi Hl.
    rewrite !sanitize_kept.
    rewrite (kept_entry_start _ _ pre h (mid ++ l :: post)) by done.
    rewrite (kept_entry_start _ _ pre h (mid ++ post)) by done.
    do 2 f_equal. by apply kept_stray_doi.
Qed.

Lemma C1_first_doi_line_of_entry_kept_witness :
  Sanitizer.sanitize zotero_export =
  [ "@article{doe2020," +:+ nl;
    "  title = {A {Study}}," +:+ nl;
    "  DOI = {10.1/xyz}," +:+ nl;
    "  year = {2020}," +:+ nl;
    "}" +:+ nl;
    "@book{roe," +:+ nl;
    "  doi = {10.2/b}" +:+ nl;
    "}" +:+ nl ].
Proof.
  refine (proj1 (C1_first_doi_line_of_entry_kept
                   []
                   ["  title = {A {Study}}," +:+ nl]
                   ["  year = {2020}," +:+ nl; "  doi = {10.1/other}," +:+ nl;
                    "}" +:+ nl; "doi = {stray}" +:+ nl]
                   ["@book{roe," +:+ nl; "  doi = {10.2/b}" +:+ nl; "}" +:+ nl]
                   ("@article{doe2020," +:+ nl)
                   ("  DOI = {10.1/xyz}," +:+ nl) _ _ _ _ _)).
  - vm_compute; reflexivity.
  - vm_compute; reflexivity.
  - vm_compute; reflexivity.
  - vm_compute; reflexivity.
  - right. eexists _, _. split; [reflexivity | vm_compute; reflexivity].
Defined.

(** The text the parser receives for [repeated_title_export]: the second
    doi line is gone, the second title line is not. *)
Example cleaned_repeated_title_export :
  Sanitizer.sanitize repeated_title_export
  = [ "@article{k," +:+ nl;
      "  title = {A}," +:+ nl;
      "  title = {B}," +:+ nl;
      "  doi = {a}," +:+ nl;
      "}" +:+ nl ].
Proof. vm_compute. reflexivity. Qed.

(** C1 as stated fails: an entry with two doi field lines does not make the
    parse succeed.  For [repeated_title_export] the sanitizer drops the
    second doi line, the parser rejects the text that is left, and
    [clean_and_parse] ends with the parser's exception. *)
Lemma C1_parse_can_fail :
  ~ (forall (readlines : string -> result (list string))
            (parse_string : string -> result BibliographyData)
            (filename : string) (pre b1 b2 post : list string) (h d : string),
        readlines filename = Ok (pre ++ h :: b1 ++ d :: b2 ++ post) ->
        Sanitizer.starts_entry h = true ->
        Sanitizer.no_entry_start (b1 ++ d :: b2) = true ->
        forallb Sanitizer.not_doi b1 = true ->
        Sanitizer.is_doi_line d = true ->
        existsb Sanitizer.is_doi_line b2 = true ->
        (post = [] \/
         exists h' post', post = h' :: post' /\ Sanitizer.starts_entry h' = true) ->
        exists bib,
          Sanitizer.clean_and_parse readlines parse_string filename = Ok bib).
Proof.
  intros H.
  destruct (H repeated_title_readlines rejecting_parser "refs.bib"
              [] ["  title = {A}," +:+ nl; "  title = {B}," +:+ nl]
              ["  doi = {b}" +:+ nl; "}" +:+ nl] []
              ("@article{k," +:+ nl) ("  doi = {a}," +:+ nl))
    as [bib Hbib]; try (vm_compute; reflexivity).
  - by left.
  - discriminate Hbib.
Qed.

Lemma C9_inside_entry_never_cleared_witness :
  Sanitizer.sanitize
    ["@article{doe2020," +:+ nl; "  doi = {10.1/xyz}" +:+ nl; "}" +:+ nl;
     "doi = {stray}" +:+ nl; "@book{roe," +:+ nl]
  = Sanitizer.sanitize
    ["@article{doe2020," +:+ nl; "  doi = {10.1/xyz}" +:+ nl; "}" +:+ nl;
     "@book{roe," +:+ nl].
Proof.
  refine (proj2 (proj2 C9_inside_entry_never_cleared)
            [] ("@article{doe2020," +:+ nl)
            ["  doi = {10.1/xyz}" +:+ nl; "}" +:+ nl]
            ("doi = {stray}" +:+ nl) ["@book{roe," +:+ nl] _ _ _ _);
    vm_compute; reflexivity.
Defined.

(** * The renderer *)

Section FieldFacts.
Import Renderer.

Lemma dict_get_Some {V} (d : gmap string V) k dflt v :
  d !! k = Some v -> dict_get d k dflt = v.
Proof. unfold dict_get. by intros ->. Qed.

Lemma is_empty_false s : s <> "" -> PyStr.is_empty s = false.
Proof. by destruct s. Qed.

Lemma first_present_chain (d : gmap string string) earlier k later v :
  (forall k', In k' earlier -> d !! k' = None) ->
  d !! k = Some v ->
  SpecWords.first_present (earlier ++ k :: later) d = Some v.
Proof.
  intros Hnone Hk. induction earlier as [|k0 earlier IH]; cbn.
  - by rewrite Hk.
  - rewrite (Hnone k0) by (by left). apply IH. intros k' Hk'.
    apply Hnone. by right.
Qed.

Lemma first_present_none (d : gmap string string) names :
  (forall k, In k names -> d !! k = None) ->
  SpecWords.first_present names d = None.
Proof.
  induction names as [|k names IH]; [done|]. intros Hnone. cbn.
  rewrite (Hnone k) by (by left). apply IH. intros k' Hk'.
  apply Hnone. by right.
Qed.

Lemma venue_of_first_present entry :
  venue_of entry
  = default "Preprint"
      (SpecWords.first_present ["journal"; "booktitle"; "publisher"; "school"]
         (fields entry)).
Proof.
  unfold venue_of, dict_get. cbn.
  destruct (fields entry !! "journal"); [done|].
  destruct (fields entry !! "booktitle"); [done|].
  destruct (fields entry !! "publisher"); [done|].
  by destruct (fields entry !! "school").
Qed.

End FieldFacts.

(** C6.  The venue is the value of the first field present among journal,
    booktitle, publisher and school, in that order, and ["Preprint"] when
    none of them is present.  Whatever the value of the first present field
    is, the empty string included, it is the venue: the fields after it are
    not consulted. *)
Theorem C6_venue_first_present_field (entry : Entry) :
  Renderer.venue_of entry
  = default "Preprint"
      (SpecWords.first_present ["journal"; "booktitle"; "publisher"; "school"]
         (fields entry))
  /\ (forall earlier k later v,
         ["journal"; "booktitle"; "publisher"; "school"] = earlier ++ k :: later ->
         (forall k', In k' earlier -> fields entry !! k' = None) ->
         fields entry !! k = Some v ->
         Renderer.venue_of entry = v)
  /\ ((forall k, In k ["journal"; "booktitle"; "publisher"; "school"] ->
                 fields entry !! k = None) ->
      Renderer.venue_of entry = "Preprint").
Proof.
  split; [apply venue_of_first_present|]. split.
  - intros earlier k later v Hchain Hnone Hk.
    rewrite venue_of_first_present, Hchain.
    by rewrite (first_present_chain _ _ _ _ v).
  - intros Hnone. rewrite venue_of_first_present.
    by rewrite first_present_none.
Qed.

Lemma C6_venue_first_present_field_witness :
  Renderer.venue_of empty_journal_entry = "".
Proof.
  refine (proj1 (proj2 (C6_venue_first_present_field empty_journal_entry))
            [] "journal" ["booktitle"; "publisher"; "school"] "" _ _ _).
  - reflexivity.
  - intros k' [].
  - vm_compute; reflexivity.
Defined.

(** C2, as amended.  When the doi field is absent or empty no link segment
    is emitted.  Otherwise the segment is [" [[Link](https://doi.org/d)]"]
    where [d] is the doi value with every occurrence of
    ["https://doi.org/"] removed, wherever it stands: a value without an
    occurrence is used as it is, and a value that is the prefix followed by
    a text without an occurrence gives that text, so ["https://doi.org/10.1/x"]
    and ["10.1/x"] have the same link target. *)
Theorem C2_doi_link_removes_every_occurrence (entry : Entry) :
  (fields entry !! "doi" = None \/ fields entry !! "doi" = Some "" ->
   Renderer.doi_str entry = "")
  /\ (forall doi,
         fields entry !! "doi" = Some doi -> doi <> "" ->
         Renderer.doi_str entry
         = " [[Link](https://doi.org/"
           +:+ PyStr.replace "https://doi.org/" "" doi +:+ ")]")
  /\ (forall doi,
         PyStr.contains "https://doi.org/" doi = false ->
         PyStr.replace "https://doi.org/" "" doi = doi)
  /\ (forall r,
         PyStr.contains "https://doi.org/" r = false ->
         PyStr.replace "https://doi.org/" "" ("https://doi.org/" +:+ r) = r)
  /\ Renderer.doi_target "https://doi.org/10.1/x" = "https://doi.org/10.1/x"
  /\ Renderer.doi_target "10.1/x" = "https://doi.org/10.1/x".
Proof.
  repeat split.
  - unfold Renderer.doi_str, dict_get. by intros [-> | ->].
  - intros doi Hdoi Hne. unfold Renderer.doi_str, Renderer.doi_link.
    rewrite (dict_get_Some _ _ _ doi) by done.
    by rewrite is_empty_false.
  - intros doi. apply replace_absent.
  - intros r Hr. rewrite replace_prefix by done.
    by rewrite replace_absent.
Qed.

Lemma C2_doi_link_removes_every_occurrence_witness :
  Renderer.doi_str prefixed_doi_entry = " [[Link](https://doi.org/10.1/x)]".
Proof.
  refine (proj1 (proj2 (C2_doi_link_removes_every_occurrence prefixed_doi_entry))
            "https://doi.org/10.1/x" _ _).
  - vm_compute; reflexivity.
  - discriminate.
Defined.

(** C2 as stated fails: a doi value that does not begin with
    ["https://doi.org/"] but holds it further on is not used as it is. *)
Lemma C2_inner_occurrence_removed :
  ~ (forall entry doi,
        fields entry !! "doi" = Some doi -> doi <> "" ->
        PyStr.startswith "https://doi.org/" doi = false ->
        Renderer.doi_str entry = " [[Link](https://doi.org/" +:+ doi +:+ ")]").
Proof.
  intros H.
  assert (Hbad := H labelled_doi_entry "doi:https://doi.org/10.1/x"
                    eq_refl ltac:(discriminate) eq_refl).
  vm_compute in Hbad. discriminate Hbad.
Qed.

Example labelled_doi_link :
  Renderer.doi_str labelled_doi_entry = " [[Link](https://doi.org/doi:10.1/x)]".
Proof. vm_compute. reflexivity. Qed.

Section OutputFacts.
Import Renderer.

Lemma format_name_empty_highlight person :
  format_name (Some "") person = plain_name person.
Proof. reflexivity. Qed.

Lemma render_bib_empty_highlight bib_data :
  render_bib (Some "") bib_data = render_bib None bib_data.
Proof. reflexivity. Qed.

(** What each kind of printed line begins with. *)
Lemma heading_first_char cat_name :
  PyStr.first_char (heading cat_name) = Some "#"%char.
Proof. reflexivity. Qed.

Lemma entry_line_first_char author_highlight e :
  PyStr.first_char (entry_line author_highlight e) = Some "1"%char.
Proof. reflexivity. Qed.

Lemma missing_file_message_first_char bib_file :
  PyStr.first_char (missing_file_message bib_file) = Some "*"%char.
Proof. reflexivity. Qed.

Lemma parse_error_message_first_char e :
  PyStr.first_char (parse_error_message e) = Some "*"%char.
Proof. reflexivity. Qed.

(** A line that begins with an asterisk is neither a heading nor the line
    of an entry. *)
Lemma asterisk_line_not_rendered msg :
  PyStr.first_char msg = Some "*"%char ->
  (forall cat_name, msg <> heading cat_name)
  /\ (forall author_highlight e, msg <> entry_line author_highlight e).
Proof.
  intros Hmsg. split.
  - intros cat_name ->. by rewrite heading_first_char in Hmsg.
  - intros author_highlight e ->. by rewrite entry_line_first_char in Hmsg.
Qed.

End OutputFacts.

(** C10.  With the empty string as [author_highlight] the highlight test is
    false for every name, as it is without a highlight, although the empty
    string is found in every name: each author is printed as the plain
    name, and [render_pubs] prints what it prints for [None]. *)
Theorem C10_empty_highlight_is_no_highlight :
  Renderer.truthy (Some "") = Renderer.truthy None
  /\ (forall name, Renderer.highlighted (Some "") name = false)
  /\ (forall name, PyStr.contains "" name = true)
  /\ (forall person,
         Renderer.format_name (Some "") person = Renderer.plain_name person)
  /\ (forall entry,
         Renderer.author_str (Some "") entry
         = PyStr.join ", " (map Renderer.plain_name
                              (dict_get (persons entry) "author" [])))
  /\ (forall path_exists readlines parse_string bib_file,
         Renderer.render_pubs path_exists readlines parse_string bib_file (Some "")
         = Renderer.render_pubs path_exists readlines parse_string bib_file None).
Proof.
  split; [reflexivity|]. split; [reflexivity|]. split; [apply contains_nil|].
  split; [apply format_name_empty_highlight|]. split; [reflexivity|].
  intros path_exists readlines parse_string bib_file.
  unfold Renderer.render_pubs.
  destruct (negb (path_exists bib_file)); [reflexivity|].
  destruct (Sanitizer.clean_and_parse readlines parse_string bib_file);
    [apply render_bib_empty_highlight | reflexivity].
Qed.

(** C8.  When the file does not exist [render_pubs] prints one string, the
    message that names the file; when the file exists and reading it or
    parsing its sanitized text raises an exception [e], it prints one
    string, the message that ends with [str(e)].  In both cases nothing else
    is printed: no heading and no line of an entry.  [render_pubs] is a
    total function to the list of printed strings, so the exception goes no
    further. *)
Theorem C8_errors_are_printed_not_raised
    (path_exists : string -> bool)
    (readlines : string -> result (list string))
    (parse_string : string -> result BibliographyData)
    (bib_file : string) (author_highlight : option string) :
  let printed :=
    Renderer.render_pubs path_exists readlines parse_string bib_file author_highlight in
  (path_exists bib_file = false ->
   printed = ["**Error:** Could not find bibliography file: `" +:+ bib_file +:+ "`"])
  /\ (forall lines e,
         path_exists bib_file = true ->
         readlines bib_file = Ok lines ->
         parse_string (Sanitizer.cleaned_text lines) = Raise e ->
         printed = ["**Error parsing bib file:** " +:+ exc_str e])
  /\ (forall e,
         path_exists bib_file = true ->
         readlines bib_file = Raise e ->
         printed = ["**Error parsing bib file:** " +:+ exc_str e])
  /\ (path_exists bib_file = false
      \/ (exists e, Sanitizer.clean_and_parse readlines parse_string bib_file = Raise e) ->
      exists msg,
        printed = [msg]
        /\ Renderer.stream printed = msg +:+ nl
        /\ (forall cat_name, msg <> Renderer.heading cat_name)
        /\ (forall hl e, msg <> Renderer.entry_line hl e)).
Proof.
  intros printed. subst printed. unfold Renderer.render_pubs.
  split; [|split; [|split]].
  - by intros ->.
  - intros lines e -> Hread Hparse. cbn.
    unfold Sanitizer.clean_and_parse. by rewrite Hread, Hparse.
  - intros e -> Hread. cbn.
    unfold Sanitizer.clean_and_parse. by rewrite Hread.
  - intros [Hmissing | [e He]].
    + rewrite Hmissing. cbn. eexists. split; [reflexivity|].
      split; [by rewrite append_nil_r|].
      apply asterisk_line_not_rendered, missing_file_message_first_char.
    + destruct (negb (path_exists bib_file)).
      * eexists. split; [reflexivity|]. split; [cbn; by rewrite append_nil_r|].
        apply asterisk_line_not_rendered, missing_file_message_first_char.
      * rewrite He. eexists. split; [reflexivity|].
        split; [cbn; by rewrite append_nil_r|].
        apply asterisk_line_not_rendered, parse_error_message_first_char.
Qed.

Lemma C8_errors_are_printed_not_raised_witness :
  Renderer.render_pubs nothing_exists nothing_readable rejecting_parser
    "refs.bib" (Some "Jane Doe")
  = ["**Error:** Could not find bibliography file: `refs.bib`"]
  /\ Renderer.render_pubs one_article_exists repeated_title_readlines
       rejecting_parser "refs.bib" (Some "Jane Doe")
     = ["**Error parsing bib file:** entry with key k has a duplicate title field"].
Proof.
  split.
  - refine (proj1 (C8_errors_are_printed_not_raised nothing_exists
                     nothing_readable rejecting_parser "refs.bib" _) _).
    reflexivity.
  - refine (proj1 (proj2 (C8_errors_are_printed_not_raised one_article_exists
                            repeated_title_readlines rejecting_parser "refs.bib" _))
              repeated_title_export
              {| exc_str := "entry with key k has a duplicate title field" |} _ _ _);
      reflexivity.
Defined.

(** C3, as amended.  For a file that exists and parses to the bibliography
    with the single article of Jane Doe, under any key, [render_pubs] with the highlight
    ["Doe"] makes three [print] calls: the heading, the line of the entry,
    and [print("\n")].  On the output stream the line of the entry is
    followed by two newline characters beyond its own, that is by two
    empty lines, and by nothing else. *)
Theorem C3_one_article_rendering
    (path_exists : string -> bool)
    (readlines : string -> result (list string))
    (parse_string : string -> result BibliographyData)
    (bib_file key : string) :
  path_exists bib_file = true ->
  Sanitizer.clean_and_parse readlines parse_string bib_file
  = Ok {| entries := [(key, doe2020)] |} ->
  let printed :=
    Renderer.render_pubs path_exists readlines parse_string bib_file (Some "Doe") in
  printed
  = [ "### Journal Articles";
      "1. **Jane Doe** (2020). **A Study.** *Nature*. [[Link](https://doi.org/10.1/xyz)]";
      nl ]
  /\ Renderer.stream printed
     = "### Journal Articles" +:+ nl
       +:+ "1. **Jane Doe** (2020). **A Study.** *Nature*. [[Link](https://doi.org/10.1/xyz)]"
       +:+ nl +:+ nl +:+ nl.
Proof.
  intros Hexists Hparse printed. subst printed.
  unfold Renderer.render_pubs. rewrite Hexists, Hparse. cbn [negb].
  split; vm_compute; reflexivity.
Qed.

Lemma C3_one_article_rendering_witness :
  Renderer.render_pubs one_article_exists one_article_readlines one_article_parser
    "refs.bib" (Some "Doe")
  = [ "### Journal Articles";
      "1. **Jane Doe** (2020). **A Study.** *Nature*. [[Link](https://doi.org/10.1/xyz)]";
      nl ].
Proof.
  refine (proj1 (C3_one_article_rendering one_article_exists one_article_readlines
                   one_article_parser "refs.bib" "doe2020" _ _)); reflexivity.
Defined.

(** C3 as stated fails: the output is not the two lines followed by a
    single empty line.  After the newline that ends the line of the entry
    the stream holds two more newlines, not one. *)
Lemma C3_two_empty_lines_follow :
  Renderer.stream
    (Renderer.render_pubs one_article_exists one_article_readlines
       one_article_parser "refs.bib" (Some "Doe"))
  <> "### Journal Articles" +:+ nl
     +:+ "1. **Jane Doe** (2020). **A Study.** *Nature*. [[Link](https://doi.org/10.1/xyz)]"
     +:+ nl +:+ nl.
Proof. vm_compute. discriminate. Qed.

(** ** The sort *)

Section SortFacts.
Import Renderer.
Context {A : Type} (key : A -> string).

Lemma ltb_true_le (a b : string) : String.ltb a b = true -> String.le a b.
Proof.
  unfold String.ltb, String.le, String.leb.
  by destruct (String.compare a b).
Qed.

Lemma ltb_false_le (a b : string) : String.ltb a b = false -> String.le b a.
Proof.
  unfold String.ltb, String.le, String.leb.
  rewrite (String.compare_antisym a b).
  by destruct (String.compare b a).
Qed.

Lemma ltb_irrefl (a : string) : String.ltb a a = false.
Proof.
  destruct (String.ltb a a) eqn:E; [|done].
  unfold String.ltb in E. pose proof (String.compare_antisym a a) as H.
  destruct (String.compare a a); done.
Qed.

Lemma insert_desc_perm x (l : list A) : insert_desc key x l ≡ₚ x :: l.
Proof.
  induction l as [|y l IH]; [done|]. cbn.
  destruct (String.ltb (key x) (key y)); [|done].
  rewrite IH. apply Permutation_swap.
Qed.

Lemma sorted_desc_perm (l : list A) : sorted_desc key l ≡ₚ l.
Proof.
  induction l as [|x l IH]; [done|]. cbn.
  by rewrite insert_desc_perm, IH.
Qed.

Lemma insert_desc_sorted x (l : list A) :
  StronglySorted (key_ge key) l ->
  StronglySorted (key_ge key) (insert_desc key x l).
Proof.
  induction 1 as [|y l Hl IH Hy]; cbn.
  - by repeat constructor.
  - destruct (String.ltb (key x) (key y)) eqn:E.
    + constructor; [done|]. rewrite insert_desc_perm.
      constructor; [|done]. by apply ltb_true_le.
    + apply ltb_false_le in E.
      constructor; [by constructor|]. constructor; [done|].
      eapply Forall_impl; [exact Hy|].
      intros z Hz. unfold key_ge in *. by etrans.
  Qed.

Lemma sorted_desc_sorted (l : list A) :
  StronglySorted (key_ge key) (sorted_desc key l).
Proof.
  induction l as [|x l IH]; [constructor|]. cbn.
  by apply insert_desc_sorted.
Qed.

(** The sort is stable: the elements of any one key keep the order they
    had in the input. *)
Lemma insert_desc_stable k x (l : list A) :
  List.filter (fun y => String.eqb (key y) k) (insert_desc key x l)
  = List.filter (fun y => String.eqb (key y) k) (x :: l).
Proof.
  induction l as [|y l IH]; [done|]. cbn [insert_desc].
  destruct (String.ltb (key x) (key y)) eqn:E; [|done].
  cbn [List.filter] in *. rewrite IH.
  destruct (String.eqb_spec (key x) k) as [Hx|Hx];
    destruct (String.eqb_spec (key y) k) as [Hy|Hy]; try done.
  rewrite Hx, Hy, ltb_irrefl in E. done.
Qed.

Lemma sorted_desc_stable k (l : list A) :
  List.filter (fun y => String.eqb (key y) k) (sorted_desc key l)
  = List.filter (fun y => String.eqb (key y) k) l.
Proof.
  induction l as [|x l IH]; [done|]. cbn [sorted_desc foldr].
  rewrite insert_desc_stable. cbn [List.filter].
  unfold sorted_desc in IH. by rewrite IH.
Qed.

Lemma StronglySorted_lookup_lt (R : relation A) (l : list A) i j x y :
  StronglySorted R l -> i < j -> l !! i = Some x -> l !! j = Some y -> R x y.
Proof.
  intros Hl. revert i j. induction Hl as [|a l Hl IH Ha]; intros i j Hij Hi Hj.
  - done.
  - destruct j as [|j]; [lia|]. cbn in Hj. destruct i as [|i]; cbn in Hi.
    + injection Hi as ->. rewrite Forall_forall in Ha.
      apply Ha. by eapply list_elem_of_lookup_2.
    + apply (IH i j); [lia|done..].
Qed.

End SortFacts.

(** C4.  In the sorted sequence of the entries the key of an entry, its
    year when the field is present and ["0000"] otherwise, is greater than
    or equal to the key of every later entry in the lexicographic order of
    strings.  The sorted sequence is a rearrangement of the parsed
    entries. *)
Theorem C4_sorted_descending_by_year
    (bib_data : BibliographyData) (i j : nat) (ei ej : string * Entry) :
  i < j ->
  Renderer.all_entries bib_data !! i = Some ei ->
  Renderer.all_entries bib_data !! j = Some ej ->
  String.leb (Renderer.sort_key ej) (Renderer.sort_key ei) = true
  /\ Renderer.sort_key ei = default "0000" (fields (snd ei) !! "year")
  /\ Renderer.sort_key ej = default "0000" (fields (snd ej) !! "year")
  /\ Renderer.all_entries bib_data ≡ₚ entries bib_data.
Proof.
  intros Hij Hi Hj. split; [|split; [done|split; [done|]]].
  - apply Is_true_true.
    exact (StronglySorted_lookup_lt _ _ i j ei ej
             (sorted_desc_sorted Renderer.sort_key (entries bib_data)) Hij Hi Hj).
  - apply sorted_desc_perm.
Qed.

Lemma C4_sorted_descending_by_year_witness :
  String.leb (Renderer.sort_key ("b", entry_of_year "Book" None))
    (Renderer.sort_key ("c", entry_of_year "misc" (Some "2021"))) = true.
Proof.
  refine (proj1 (C4_sorted_descending_by_year three_entries_bib 0 2
                   ("c", entry_of_year "misc" (Some "2021"))
                   ("b", entry_of_year "Book" None) _ _ _)).
  - lia.
  - vm_compute; reflexivity.
  - vm_compute; reflexivity.
Defined.

Example all_entries_three :
  map fst (Renderer.all_entries three_entries_bib) = ["c"; "a"; "b"].
Proof. vm_compute. reflexivity. Qed.

(** ** The categories *)

Section CategoryFacts.
Import Renderer.

Lemma in_list_In x l : in_list x l = true <-> In x l.
Proof.
  unfold in_list. rewrite existsb_exists. split.
  - intros (y & Hy & ->%String.eqb_eq). done.
  - intros Hx. exists x. by rewrite String.eqb_refl.
Qed.

(** No type tag is accepted by two categories, so a category that accepts
    a tag is the first that does. *)
Lemma category_of_accepting t cat :
  In cat categories -> in_list t (snd cat) = true ->
  SpecWords.category_of t = Some cat.
Proof.
  intros Hcat Hin. apply in_list_In in Hin. cbn in Hcat.
  destruct Hcat as [<- | [<- | [<- | [<- | []]]]]; cbn in Hin;
    repeat (destruct Hin as [<- | Hin]; [reflexivity|]); done.
Qed.

Lemma category_of_Some t cat :
  SpecWords.category_of t = Some cat ->
  In cat categories /\ in_list t (snd cat) = true.
Proof. unfold SpecWords.category_of. apply find_some. Qed.

Lemma category_of_None t cat :
  SpecWords.category_of t = None -> In cat categories ->
  in_list t (snd cat) = false.
Proof.
  unfold SpecWords.category_of. intros Hnone Hcat.
  exact (find_none _ _ Hnone cat Hcat).
Qed.

Lemma cat_entries_In e types all :
  In e (cat_entries types all) <-> In e all /\ in_category types e = true.
Proof. unfold cat_entries. apply filter_In. Qed.

Lemma heading_inj a b : heading a = heading b -> a = b.
Proof. unfold heading. apply (inj (String.app "### ")). Qed.

Lemma category_names_distinct c1 c2 :
  In c1 categories -> In c2 categories -> fst c1 = fst c2 -> c1 = c2.
Proof.
  cbn. intros H1 H2.
  repeat (destruct H1 as [<- | H1]); try done;
    repeat (destruct H2 as [<- | H2]); try done; cbn; discriminate.
Qed.

(** The strings one category prints. *)
Lemma In_render_category line author_highlight all cat :
  In line (render_category author_highlight all cat) <->
  cat_entries (snd cat) all <> []
  /\ (line = heading (fst cat)
      \/ In line (map (entry_line author_highlight) (cat_entries (snd cat) all))
      \/ line = nl).
Proof.
  unfold render_category.
  destruct (cat_entries (snd cat) all) as [|e es] eqn:E.
  - split; [done|]. by intros [? _].
  - rewrite <- E. cbn [In]. rewrite in_app_iff. cbn [In].
    assert (Hne : cat_entries (snd cat) all <> []) by (by rewrite E).
    split.
    + intros [<- | [H | [<- | []]]]; (split; [exact Hne|]); auto.
    + intros [_ [-> | [H | ->]]]; auto.
Qed.

Lemma heading_in_render_bib author_highlight bib_data cat :
  In cat categories ->
  In (heading (fst cat)) (render_bib author_highlight bib_data)
  <-> cat_entries (snd cat) (all_entries bib_data) <> [].
Proof.
  intros Hcat. unfold render_bib. rewrite in_concat. split.
  - intros (printed & Hprinted & Hin).
    apply in_map_iff in Hprinted as (cat' & <- & Hcat').
    apply In_render_category in Hin as [Hne [Hh | [Hl | Hn]]].
    + apply heading_inj in Hh.
      by rewrite (category_names_distinct cat cat').
    + apply in_map_iff in Hl as (e & He & _).
      apply (f_equal PyStr.first_char) in He.
      by rewrite heading_first_char, entry_line_first_char in He.
    + apply (f_equal PyStr.first_char) in Hn.
      by rewrite heading_first_char in Hn.
  - intros Hne. exists (render_category author_highlight (all_entries bib_data) cat).
    split; [by apply in_map|].
    apply In_render_category. auto.
Qed.

End CategoryFacts.

(** C5.  An entry of the sorted sequence is among the entries of a
    category iff that category is the first, in the fixed order, whose
    accepted types contain the entry's type tag in lower case.  So it is
    among the entries of at most one category, and of none when no category
    accepts its tag.  The strings printed are, category by category, the
    heading, the lines of the category's entries and ["\n"], and nothing
    for a category without entries: its heading is not printed at all. *)
Theorem C5_entry_in_first_matching_category
    (bib_data : BibliographyData) (author_highlight : option string) :
  let all := Renderer.all_entries bib_data in
  (forall e cat,
      In e all -> In cat Renderer.categories ->
      (In e (Renderer.cat_entries (snd cat) all)
       <-> SpecWords.category_of (PyStr.lower (type_ (snd e))) = Some cat))
  /\ (forall e cat1 cat2,
         In cat1 Renderer.categories -> In cat2 Renderer.categories ->
         In e (Renderer.cat_entries (snd cat1) all) ->
         In e (Renderer.cat_entries (snd cat2) all) ->
         cat1 = cat2)
  /\ (forall e cat,
         SpecWords.category_of (PyStr.lower (type_ (snd e))) = None ->
         In cat Renderer.categories ->
         ~ In e (Renderer.cat_entries (snd cat) all))
  /\ (forall cat,
         In cat Renderer.categories ->
         (In (Renderer.heading (fst cat)) (Renderer.render_bib author_highlight bib_data)
          <-> Renderer.cat_entries (snd cat) all <> []))
  /\ Renderer.render_bib author_highlight bib_data
     = concat (map (fun cat =>
                      match Renderer.cat_entries (snd cat) all with
                      | [] => []
                      | es => Renderer.heading (fst cat)
                              :: map (Renderer.entry_line author_highlight) es ++ [nl]
                      end) Renderer.categories).
Proof.
  intros all. split; [|split; [|split; [|split]]].
  - intros e cat He Hcat. rewrite cat_entries_In. split.
    + intros [_ Hin]. by apply category_of_accepting.
    + intros [_ Hin]%category_of_Some. done.
  - intros e cat1 cat2 H1 H2 [_ Hin1]%cat_entries_In [_ Hin2]%cat_entries_In.
    apply (category_of_accepting _ cat1) in Hin1; [|done].
    apply (category_of_accepting _ cat2) in Hin2; [|done].
    congruence.
  - intros e cat Hnone Hcat [_ Hin]%cat_entries_In.
    unfold Renderer.in_category in Hin.
    by rewrite (category_of_None _ cat Hnone Hcat) in Hin.
  - intros cat Hcat. by apply heading_in_render_bib.
  - reflexivity.
Qed.

Lemma C5_entry_in_first_matching_category_witness :
  In ("b", entry_of_year "Book" None)
    (Renderer.cat_entries ["book"; "incollection"]
       (Renderer.all_entries three_entries_bib))
  /\ ~ In ("c", entry_of_year "misc" (Some "2021"))
       (Renderer.cat_entries ["article"]
          (Renderer.all_entries three_entries_bib)).
Proof.
  pose proof (C5_entry_in_first_matching_category three_entries_bib None)
    as (Hfirst & _ & Hnone & _).
  split.
  - apply (Hfirst ("b", entry_of_year "Book" None)
             ("Books and Chapters", ["book"; "incollection"])).
    + vm_compute. tauto.
    + vm_compute. tauto.
    + vm_compute. reflexivity.
  - apply (Hnone ("c", entry_of_year "misc" (Some "2021"))
             ("Journal Articles", ["article"])).
    + vm_compute. reflexivity.
    + vm_compute. tauto.
Defined.

(** * The page title *)

Section StripFacts.
Import PyStr.

Lemma has_char_append c a b :
  has_char c (a +:+ b) = has_char c a || has_char c b.
Proof.
  induction a as [|x a IH]; [done|].
  rewrite append_cons. cbn. by rewrite IH, orb_assoc.
Qed.

Lemma last_char_None s : last_char s = None -> s = "".
Proof.
  destruct s as [|a s]; [done|]. cbn. by destruct (last_char s).
Qed.

Lemma lstrip_by_spec p s :
  exists l,
    s = l +:+ lstrip_by p s /\ all_chars p l = true
    /\ (forall c, first_char (lstrip_by p s) = Some c -> p c = false).
Proof.
  induction s as [|a s (l & Hs & Hl & Hfirst)].
  - by exists "".
  - cbn [lstrip_by]. destruct (p a) eqn:Ha.
    + exists (String a l). rewrite append_cons, <- Hs. cbn. by rewrite Ha, Hl.
    + exists "". split; [done|]. split; [done|]. cbn. by intros c [= <-].
Qed.

Lemma rstrip_by_spec p s :
  exists r,
    s = rstrip_by p s +:+ r /\ all_chars p r = true
    /\ (forall c, last_char (rstrip_by p s) = Some c -> p c = false).
Proof.
  induction s as [|a s (r & Hs & Hr & Hlast)].
  - by exists "".
  - cbn [rstrip_by]. destruct (p a && is_empty (rstrip_by p s)) eqn:E.
    + apply andb_true_iff in E as [Ha Hempty].
      destruct (rstrip_by p s); [|done]. change ("" +:+ r) with r in Hs. subst r.
      exists (String a s). cbn. by rewrite Ha, Hr.
    + exists r. rewrite append_cons, <- Hs. split; [done|]. split; [done|].
      intros c. cbn [last_char].
      destruct (last_char (rstrip_by p s)) as [b|] eqn:Hb.
      * intros [= <-]. by apply Hlast.
      * intros [= <-]. apply last_char_None in Hb. rewrite Hb in E.
        cbn in E. by rewrite andb_true_r in E.
Qed.

Lemma rstrip_by_first_char p s c :
  first_char (rstrip_by p s) = Some c -> first_char s = Some c.
Proof.
  destruct s as [|a s]; [done|]. cbn.
  by destruct (p a && is_empty (rstrip_by p s)).
Qed.

(** [strip_by p] takes away exactly the characters of the set [p] that
    stand at the two ends. *)
Lemma strip_by_spec p s : stripped_of p s (strip_by p s).
Proof.
  unfold strip_by.
  destruct (lstrip_by_spec p s) as (l & Hs & Hl & Hfirst).
  destruct (rstrip_by_spec p (lstrip_by p s)) as (r & Ht & Hr & Hlast).
  exists l, r. split; [by rewrite <- Ht|].
  repeat split; [done..| |done].
  intros c Hc. apply Hfirst. by apply (rstrip_by_first_char p).
Qed.

Lemma split_first_spec sep s :
  has_char sep (split_head sep s) = false
  /\ match split_tail sep s with
     | Some rest => s = split_head sep s +:+ String sep rest
     | None => s = split_head sep s /\ has_char sep s = false
     end.
Proof.
  unfold split_head, split_tail.
  induction s as [|a s [Hhead Htail]]; [done|]. cbn.
  destruct (Ascii.eqb_spec a sep) as [->|Hne]; [done|].
  destruct (split_first sep s) as [before after]. cbn in *.
  apply Ascii.eqb_neq in Hne. rewrite Hne. split; [done|].
  destruct after as [rest|].
  - by rewrite append_cons, <- Htail.
  - destruct Htail as [<- ->]. done.
Qed.

Lemma startswith_has_char c pre : forall s,
  startswith pre s = true -> has_char c pre = true -> has_char c s = true.
Proof.
  induction pre as [|a pre IH]; [done|]. intros [|b s]; [done|]. cbn.
  intros [->%Ascii.eqb_eq Hs]%andb_true_iff [Hc|Hc]%orb_true_iff.
  - by rewrite Hc.
  - rewrite (IH s) by done. by rewrite orb_true_r.
Qed.

Lemma stripped_of_has_char p s t c :
  stripped_of p s t -> has_char c t = true -> has_char c s = true.
Proof.
  intros (l & r & -> & _) Hc. rewrite !has_char_append, Hc.
  by rewrite orb_true_r.
Qed.

End StripFacts.

Section TitleFacts.
Import PyStr PageContext.

Lemma is_title_line_has_colon line :
  is_title_line line = true -> has_char ":"%char line = true.
Proof.
  unfold is_title_line. intros Ht.
  apply (stripped_of_has_char isspace line (strip line)); [apply strip_by_spec|].
  by apply (startswith_has_char _ "title:").
Qed.

(** The indexing of the split never fails on a title line. *)
Lemma title_value_Ok line :
  is_title_line line = true ->
  exists rest,
    split_tail ":"%char line = Some rest
    /\ line = split_head ":"%char line +:+ String ":"%char rest
    /\ has_char ":"%char (split_head ":"%char line) = false
    /\ title_value line
       = Ok (strip_char squote (strip_char dquote (strip rest))).
Proof.
  intros Hc%is_title_line_has_colon. unfold title_value.
  destruct (split_first_spec ":"%char line) as [Hhead Htail].
  destruct (split_tail ":"%char line) as [rest|].
  - by exists rest.
  - destruct Htail as [_ Hno]. congruence.
Qed.

Lemma scan_title_first pre line post :
  forallb (fun l => negb (is_title_line l)) pre = true ->
  is_title_line line = true ->
  scan_title (pre ++ line :: post)
  = match title_value line with Ok t => Ok (Some t) | Raise e => Raise e end.
Proof.
  intros Hpre Hline. induction pre as [|l pre IH]; cbn [app scan_title].
  - by rewrite Hline.
  - cbn [forallb] in Hpre. apply andb_true_iff in Hpre as [Hl Hpre].
    apply negb_true_iff in Hl. rewrite Hl. by apply IH.
Qed.

End TitleFacts.

(** C7, as amended.  When the first markup file holds a line whose trimmed
    content starts with ["title:"], the title returned for the first such
    line is the text after the first colon of the line, trimmed of white
    space, then without any of the double quotes that stand at its two ends,
    then without any of the single quotes that stand at the two ends of
    what is left: each pass removes every quote of its kind at either end,
    however many there are. *)
Theorem C7_title_strips_every_quote
    (glob : string -> list string)
    (readlines : string -> result (list string))
    (target_file : string) (others pre post : list string) (line : string) :
  glob "*.qmd" = target_file :: others ->
  readlines target_file = Ok (pre ++ line :: post) ->
  forallb (fun l => negb (PageContext.is_title_line l)) pre = true ->
  PageContext.is_title_line line = true ->
  exists rest,
    PyStr.split_tail ":"%char line = Some rest
    /\ line = PyStr.split_head ":"%char line +:+ String ":"%char rest
    /\ PyStr.has_char ":"%char (PyStr.split_head ":"%char line) = false
    /\ let trimmed := PyStr.strip rest in
       let unquoted := PyStr.strip_char PageContext.dquote trimmed in
       let title := PyStr.strip_char PageContext.squote unquoted in
       PyStr.stripped_of PyStr.isspace rest trimmed
       /\ PyStr.stripped_of (Ascii.eqb PageContext.dquote) trimmed unquoted
       /\ PyStr.stripped_of (Ascii.eqb PageContext.squote) unquoted title
       /\ PageContext.get_current_page_title glob readlines = Ok (Some title).
Proof.
  intros Hglob Hread Hpre Hline.
  destruct (title_value_Ok line Hline) as (rest & Htail & Hsplit & Hbefore & Hval).
  exists rest. split; [done|]. split; [done|]. split; [done|]. cbn zeta.
  split; [apply strip_by_spec|]. split; [apply strip_by_spec|].
  split; [apply strip_by_spec|].
  unfold PageContext.get_current_page_title. rewrite Hglob, Hread.
  rewrite scan_title_first by done. by rewrite Hval.
Qed.

Lemma C7_title_strips_every_quote_witness :
  PageContext.get_current_page_title one_page_glob (fun _ => Ok quoted_page)
  = Ok (Some "Jane Doe").
Proof.
  destruct (C7_title_strips_every_quote one_page_glob (fun _ => Ok quoted_page)
              "index.qmd" [] ["---" +:+ nl] ["---" +:+ nl]
              ("title: " +:+ String PageContext.squote
                 ("Jane Doe" +:+ String PageContext.squote nl))
              eq_refl eq_refl eq_refl eq_refl)
    as (rest & Htail & _ & _ & _ & _ & _ & Hget).
  vm_compute in Htail. injection Htail as <-.
  rewrite Hget. vm_compute. reflexivity.
Defined.

(** C7 as stated fails: the quotes are not taken one from each end.  The
    value that stands between two double quotes on either side loses all
    four of them. *)
Lemma C7_every_quote_is_stripped :
  ~ (forall (glob : string -> list string)
            (readlines : string -> result (list string))
            (target_file : string) (others pre post : list string) (line : string),
        glob "*.qmd" = target_file :: others ->
        readlines target_file = Ok (pre ++ line :: post) ->
        forallb (fun l => negb (PageContext.is_title_line l)) pre = true ->
        PageContext.is_title_line line = true ->
        exists rest,
          PyStr.split_tail ":"%char line = Some rest
          /\ PageContext.get_current_page_title glob readlines
             = Ok (Some (SpecWords.strip_one PageContext.squote
                           (SpecWords.strip_one PageContext.dquote
                              (PyStr.strip rest))))).
Proof.
  intros H.
  destruct (H one_page_glob (fun _ => Ok double_quoted_page) "index.qmd" []
              ["---" +:+ nl] ["---" +:+ nl] double_quoted_line
              eq_refl eq_refl eq_refl eq_refl)
    as (rest & Htail & Hget).
  vm_compute in Htail. injection Htail as <-.
  vm_compute in Hget. discriminate Hget.
Qed.

Example double_quoted_title :
  PageContext.get_current_page_title one_page_glob (fun _ => Ok double_quoted_page)
  = Ok (Some "Hello").
Proof. vm_compute. reflexivity. Qed.

Example double_quoted_title_one_layer :
  SpecWords.strip_one PageContext.squote
    (SpecWords.strip_one PageContext.dquote
       (PyStr.strip
          (String PageContext.dquote (String PageContext.dquote
             ("Hello" +:+ String PageContext.dquote (String PageContext.dquote nl))))))
  = String PageContext.dquote ("Hello" +:+ String PageContext.dquote "").
Proof. vm_compute. reflexivity. Qed.

(** * Discovery *)

(** Without a bibliography file in the directory [render_auto] prints the
    fallback message and nothing else, whatever the title of the page. *)
Lemma render_auto_no_bibliography
    (glob : string -> list string) (path_exists : string -> bool)
    (readlines : string -> result (list string))
    (parse_string : string -> result BibliographyData) (clean_name : option string) :
  PageContext.get_current_page_title glob readlines = Ok clean_name ->
  glob "*.bib" = [] ->
  PageContext.render_auto glob path_exists readlines parse_string
  = Ok ["*No bibliography found in this folder.*"].
Proof.
  intros Htitle Hglob. unfold PageContext.render_auto.
  by rewrite Htitle, Hglob.
Qed.

(** * Further properties of the sanitizer *)

Section SanitizerMore.
Import Sanitizer.

Lemma kept_sublist lines : forall seen inside,
  sublist (kept seen inside lines) lines.
Proof.
  induction lines as [|l lines IH]; intros seen inside; [constructor|].
  cbn [kept].
  repeat (match goal with |- context [if ?b then _ else _] => destruct b end);
    first [apply sublist_skip, IH | apply sublist_cons, IH].
Qed.

Lemma kept_not_doi lines : forall seen inside,
  List.filter not_doi (kept seen inside lines) = List.filter not_doi lines.
Proof.
  induction lines as [|l lines IH]; intros seen inside; [done|].
  cbn [kept List.filter]. unfold not_doi at 2, is_doi_line.
  destruct (starts_entry l) eqn:Hat; cbn [negb andb].
  { cbn [List.filter]. unfold not_doi at 1, is_doi_line. rewrite Hat.
    cbn. by rewrite IH. }
  destruct (PyStr.contains "=" (stripped l) && String.eqb (field_part l) "doi")
    eqn:Hdoi.
  - apply andb_true_iff in Hdoi as [Hc Hd]. rewrite Hc, Hd, andb_true_r. cbn.
    destruct inside; cbn.
    + destruct seen; [apply IH|]. cbn [List.filter].
      unfold not_doi at 1, is_doi_line. rewrite Hat, Hc, Hd. cbn. apply IH.
    + cbn [List.filter]. unfold not_doi at 1, is_doi_line.
      rewrite Hat, Hc, Hd. cbn. apply IH.
  - assert (Hno : inside && PyStr.contains "=" (stripped l)
                  && String.eqb (field_part l) "doi" = false).
    { rewrite <- andb_assoc, Hdoi. apply andb_false_r. }
    rewrite Hno. cbn [List.filter]. unfold not_doi at 1, is_doi_line.
    rewrite Hat. cbn [negb andb]. rewrite Hdoi. cbn. by rewrite IH.
Qed.

Lemma kept_outside_entry lines : forall seen,
  no_entry_start lines = true -> kept seen false lines = lines.
Proof.
  induction lines as [|l lines IH]; intros seen; [done|].
  cbn. intros [Hl Hrest]%andb_true_iff. apply negb_true_iff in Hl.
  rewrite Hl. by rewrite IH.
Qed.

Lemma kept_without_doi lines : forall seen inside,
  forallb not_doi lines = true -> kept seen inside lines = lines.
Proof.
  induction lines as [|l lines IH]; intros seen inside; [done|].
  cbn [forallb kept]. intros [Hl Hrest]%andb_true_iff.
  unfold not_doi, is_doi_line in Hl. apply negb_true_iff in Hl.
  destruct (starts_entry l); [by rewrite IH|]. cbn in Hl.
  rewrite <- andb_assoc, Hl, andb_false_r. by rewrite IH.
Qed.

Lemma filter_full_length {A} (f : A -> bool) (l : list A) :
  length (List.filter f l) = length l -> forallb f l = true.
Proof.
  induction l as [|x l IH]; [done|]. cbn.
  pose proof (filter_length_le f l) as Hle.
  destruct (f x); cbn; [intros [= H]; by apply IH | lia].
Qed.

(** The shape of the output for a file cut at one of its entries. *)
Lemma sanitize_entry pre h b1 d b2 post :
  starts_entry h = true ->
  no_entry_start (b1 ++ d :: b2) = true ->
  forallb not_doi b1 = true ->
  is_doi_line d = true ->
  (post = [] \/ exists h' post', post = h' :: post' /\ starts_entry h' = true) ->
  sanitize (pre ++ h :: b1 ++ d :: b2 ++ post)
  = sanitize pre ++ h :: b1 ++ d :: List.filter not_doi b2 ++ sanitize post.
Proof.
  intros Hh Hbody Hb1 Hd Hpost. rewrite !sanitize_kept.
  unfold no_entry_start in Hbody. rewrite forallb_app in Hbody.
  cbn [forallb] in Hbody.
  apply andb_true_iff in Hbody as [Hn1 [_ Hn2]%andb_true_iff].
  rewrite kept_entry_start, kept_before_doi, kept_first_doi, kept_after_doi
    by done.
  by rewrite (kept_at_boundary true true post).
Qed.

Lemma sanitize_length_le lines : length (sanitize lines) <= length lines.
Proof. rewrite sanitize_kept. apply sublist_length, kept_sublist. Qed.

End SanitizerMore.

(** X1.  The sanitizer only ever removes lines, and only doi field lines:
    its output is the input with some lines left out, nothing added, changed
    or moved, and the lines that are not doi field lines are all still
    there, in their order. *)
Theorem sanitize_only_drops_doi_lines (lines : list string) :
  sublist (Sanitizer.sanitize lines) lines
  /\ List.filter Sanitizer.not_doi (Sanitizer.sanitize lines)
     = List.filter Sanitizer.not_doi lines
  /\ length (List.filter Sanitizer.not_doi lines)
     <= length (Sanitizer.sanitize lines) <= length lines.
Proof.
  rewrite sanitize_kept.
  pose proof (kept_sublist lines false false) as Hsub.
  pose proof (kept_not_doi lines false false) as Hnot.
  split; [done|]. split; [done|]. split.
  - rewrite <- Hnot. apply filter_length_le.
  - by apply sublist_length.
Qed.

(** X2.  A file is returned as it is when none of its lines starts an entry,
    however many doi field lines it repeats, and when it holds no doi field
    line at all. *)
Theorem sanitize_leaves_file_unchanged (lines : list string) :
  Sanitizer.no_entry_start lines = true
  \/ forallb Sanitizer.not_doi lines = true ->
  Sanitizer.sanitize lines = lines.
Proof.
  rewrite sanitize_kept. intros [Hout | Hnone].
  - by apply kept_outside_entry.
  - by apply kept_without_doi.
Qed.

Lemma sanitize_leaves_file_unchanged_witness :
  Sanitizer.sanitize ["doi = {a}" +:+ nl; "doi = {b}" +:+ nl; "}" +:+ nl]
  = ["doi = {a}" +:+ nl; "doi = {b}" +:+ nl; "}" +:+ nl].
Proof.
  apply sanitize_leaves_file_unchanged. left. vm_compute. reflexivity.
Defined.

(** X3.  In the output of the sanitizer no entry holds two doi field lines:
    when the output is cut at an entry, with [d] the first doi field line
    after the line [h] that starts it, no line between [d] and the next
    entry is a doi field line. *)
Theorem sanitized_entry_has_one_doi_line
    (lines pre b1 b2 post : list string) (h d : string) :
  Sanitizer.sanitize lines = pre ++ h :: b1 ++ d :: b2 ++ post ->
  Sanitizer.starts_entry h = true ->
  Sanitizer.no_entry_start (b1 ++ d :: b2) = true ->
  forallb Sanitizer.not_doi b1 = true ->
  Sanitizer.is_doi_line d = true ->
  (post = [] \/
   exists h' post', post = h' :: post' /\ Sanitizer.starts_entry h' = true) ->
  forallb Sanitizer.not_doi b2 = true.
Proof.
  intros Hout Hh Hbody Hb1 Hd Hpost.
  pose proof (sanitize_idempotent lines) as Hidem.
  rewrite Hout in Hidem.
  rewrite (sanitize_entry pre h b1 d b2 post) in Hidem by done.
  apply (f_equal (@length string)) in Hidem.
  rewrite !length_app in Hidem. cbn [length] in Hidem.
  rewrite !length_app in Hidem. cbn [length] in Hidem.
  rewrite !length_app in Hidem.
  pose proof (sanitize_length_le pre) as Hpre.
  pose proof (sanitize_length_le post) as Hpost'.
  pose proof (filter_length_le Sanitizer.not_doi b2) as Hb2.
  apply filter_full_length. lia.
Qed.

Lemma sanitized_entry_has_one_doi_line_witness :
  forallb Sanitizer.not_doi ["  year = {2020}," +:+ nl; "}" +:+ nl] = true.
Proof.
  refine (sanitized_entry_has_one_doi_line zotero_export
            [] ["  title = {A {Study}}," +:+ nl]
            ["  year = {2020}," +:+ nl; "}" +:+ nl]
            ["@book{roe," +:+ nl; "  doi = {10.2/b}" +:+ nl; "}" +:+ nl]
            ("@article{doe2020," +:+ nl) ("  DOI = {10.1/xyz}," +:+ nl)
            _ _ _ _ _ _); try (vm_compute; reflexivity).
  right. eexists _, _. split; [reflexivity | vm_compute; reflexivity].
Defined.

Section CaseFacts.
Import PyStr Sanitizer.

Lemma isspace_lower_char c : isspace (lower_char c) = isspace c.
Proof. destruct c as [[] [] [] [] [] [] [] []]; reflexivity. Qed.

Lemma lower_char_idem c : lower_char (lower_char c) = lower_char c.
Proof. destruct c as [[] [] [] [] [] [] [] []]; reflexivity. Qed.

Lemma lower_idem s : lower (lower s) = lower s.
Proof. induction s as [|c s IH]; [done|]. cbn. by rewrite lower_char_idem, IH. Qed.

Lemma is_empty_lower s : is_empty (lower s) = is_empty s.
Proof. by destruct s. Qed.

Lemma lstrip_lower s : lstrip_by isspace (lower s) = lower (lstrip_by isspace s).
Proof.
  induction s as [|c s IH]; [done|]. cbn [lower lstrip_by].
  rewrite isspace_lower_char. by destruct (isspace c).
Qed.

Lemma rstrip_lower s : rstrip_by isspace (lower s) = lower (rstrip_by isspace s).
Proof.
  induction s as [|c s IH]; [done|]. cbn [lower rstrip_by].
  rewrite isspace_lower_char, IH, is_empty_lower.
  by destruct (isspace c && is_empty (rstrip_by isspace s)).
Qed.

(** Trimming and lowering a line, or its lowered copy, give the same. *)
Lemma stripped_lower line : stripped (lower line) = stripped line.
Proof.
  unfold stripped, strip, strip_by.
  by rewrite lstrip_lower, rstrip_lower, lower_idem.
Qed.

Lemma kept_lower lines : forall seen inside,
  kept seen inside (map lower lines) = map lower (kept seen inside lines).
Proof.
  induction lines as [|l lines IH]; intros seen inside; [done|].
  cbn [map kept]. unfold starts_entry, field_part.
  rewrite !stripped_lower.
  repeat (match goal with |- context [if ?b then _ else _] => destruct b end);
    cbn [map]; by rewrite ?IH.
Qed.

End CaseFacts.

(** X4.  The sanitizer does not look at the case of letters: for the file
    with every line in lower case it drops the lines at the same places, so
    a field written [DOI] or [Doi] counts as the doi field. *)
Theorem sanitize_ignores_case (lines : list string) :
  Sanitizer.sanitize (map PyStr.lower lines)
  = map PyStr.lower (Sanitizer.sanitize lines).
Proof. rewrite !sanitize_kept. apply kept_lower. Qed.

(** * Further facts about the string operations *)

Section StripMore.
Import PyStr.

Lemma append_assoc s1 s2 s3 : (s1 +:+ s2) +:+ s3 = s1 +:+ s2 +:+ s3.
Proof. induction s1 as [|c s1 IH]; [done|]. by rewrite !append_cons, IH. Qed.

Lemma all_chars_append p a b :
  all_chars p (a +:+ b) = all_chars p a && all_chars p b.
Proof.
  induction a as [|x a IH]; [done|].
  rewrite append_cons. cbn. by rewrite IH, andb_assoc.
Qed.

Lemma lstrip_by_all p s : all_chars p s = true -> lstrip_by p s = "".
Proof.
  induction s as [|a s IH]; [done|]. cbn.
  intros [-> Hs]%andb_true_iff. by apply IH.
Qed.

Lemma rstrip_by_all p s : all_chars p s = true -> rstrip_by p s = "".
Proof.
  induction s as [|a s IH]; [done|]. cbn.
  intros [-> Hs]%andb_true_iff. by rewrite IH.
Qed.

Lemma lstrip_by_skip p l s :
  all_chars p l = true -> lstrip_by p (l +:+ s) = lstrip_by p s.
Proof.
  induction l as [|a l IH]; [done|]. rewrite append_cons. cbn.
  intros [-> Hl]%andb_true_iff. by apply IH.
Qed.

Lemma rstrip_by_keep p v r :
  all_chars p r = true ->
  (forall c, last_char v = Some c -> p c = false) ->
  rstrip_by p (v +:+ r) = v.
Proof.
  intros Hr. induction v as [|a v IH]; intros Hlast.
  - by apply rstrip_by_all.
  - rewrite append_cons. cbn [rstrip_by]. rewrite IH.
    + destruct v as [|b v]; [|by rewrite andb_false_r].
      cbn. by rewrite (Hlast a).
    + intros c Hc. apply Hlast. cbn [last_char]. by rewrite Hc.
Qed.

(** What [strip_by] returns is the only string that [stripped_of] allows. *)
Lemma stripped_of_unique p s t : stripped_of p s t -> strip_by p s = t.
Proof.
  intros (l & r & -> & Hl & Hr & Hfirst & Hlast). unfold strip_by.
  rewrite lstrip_by_skip by done.
  destruct t as [|a t].
  - change ("" +:+ r) with r. by rewrite lstrip_by_all.
  - rewrite append_cons. cbn [lstrip_by]. rewrite (Hfirst a) by done.
    rewrite <- append_cons. by apply rstrip_by_keep.
Qed.

Lemma strip_by_append_r p s t :
  all_chars p t = true -> strip_by p (s +:+ t) = strip_by p s.
Proof.
  intros Ht. apply stripped_of_unique.
  destruct (strip_by_spec p s) as (l & r & Hs & Hl & Hr & Hfirst & Hlast).
  exists l, (r +:+ t). split.
  - rewrite Hs at 1. by rewrite !append_assoc.
  - by rewrite all_chars_append, Hr, Ht.
Qed.

Lemma strip_by_append_l p s t :
  all_chars p t = true -> strip_by p (t +:+ s) = strip_by p s.
Proof.
  intros Ht. unfold strip_by. by rewrite lstrip_by_skip.
Qed.

Lemma contains_refl s : contains s s = true.
Proof.
  pose proof (startswith_append s "") as H. rewrite append_nil_r in H.
  destruct s; [done|]. rewrite contains_cons. by rewrite H.
Qed.

(** *** Removing one character with [replace] *)

Lemma replace_char_filter c s :
  replace (String c "") "" s = filter_chars (fun a => negb (Ascii.eqb c a)) s.
Proof.
  unfold replace. induction s as [|a s IH]; [done|].
  cbn [replace_go startswith filter_chars String.length Nat.sub].
  rewrite andb_true_r. destruct (Ascii.eqb c a); cbn [negb].
  - change ("" +:+ ?x) with x. exact IH.
  - by rewrite IH.
Qed.

Lemma filter_chars_ext p q s :
  (forall a, p a = q a) -> filter_chars p s = filter_chars q s.
Proof.
  intros Hpq. induction s as [|a s IH]; [done|]. cbn. by rewrite Hpq, IH.
Qed.

Lemma filter_chars_twice p q s :
  filter_chars q (filter_chars p s) = filter_chars (fun a => p a && q a) s.
Proof.
  induction s as [|a s IH]; [done|]. cbn [filter_chars].
  destruct (p a); cbn [filter_chars andb]; [|done].
  destruct (q a); by rewrite IH.
Qed.

Lemma has_char_filter_chars c p s :
  p c = false -> has_char c (filter_chars p s) = false.
Proof.
  intros Hc. induction s as [|a s IH]; [done|]. cbn [filter_chars].
  destruct (p a) eqn:Ha; [|done]. cbn [has_char]. rewrite IH, orb_false_r.
  apply Ascii.eqb_neq. congruence.
Qed.

Lemma filter_chars_all p s :
  all_chars p s = true -> filter_chars p s = s.
Proof.
  induction s as [|a s IH]; [done|]. cbn.
  intros [-> Hs]%andb_true_iff. by rewrite IH.
Qed.

End StripMore.

(** * Further properties of the renderer *)

(** X5.  The printed title is the title field, or ["Untitled"] when the
    field is missing, with its braces taken out and every other character
    kept in place: no brace is left in it, and a title without braces is
    printed as it is. *)
Theorem title_of_removes_exactly_the_braces (entry : Entry) :
  let title := dict_get (fields entry) "title" "Untitled" in
  Renderer.title_of entry
  = PyStr.filter_chars (fun c => negb (Renderer.is_brace c)) title
  /\ PyStr.has_char "{"%char (Renderer.title_of entry) = false
  /\ PyStr.has_char "}"%char (Renderer.title_of entry) = false
  /\ (PyStr.all_chars (fun c => negb (Renderer.is_brace c)) title = true ->
      Renderer.title_of entry = title).
Proof.
  intros title.
  assert (Heq : Renderer.title_of entry
                = PyStr.filter_chars (fun c => negb (Renderer.is_brace c)) title).
  { unfold Renderer.title_of. fold title.
    rewrite !replace_char_filter, filter_chars_twice.
    apply filter_chars_ext. intros a. unfold Renderer.is_brace.
    by rewrite negb_orb. }
  rewrite Heq. split; [done|].
  split; [by apply has_char_filter_chars|].
  split; [by apply has_char_filter_chars|].
  apply filter_chars_all.
Qed.

Lemma title_of_removes_exactly_the_braces_witness :
  Renderer.title_of doe2020 = "A Study"
  /\ Renderer.title_of labelled_doi_entry = "Untitled".
Proof.
  split.
  - rewrite (proj1 (title_of_removes_exactly_the_braces doe2020)).
    vm_compute. reflexivity.
  - apply (proj2 (proj2 (proj2 (title_of_removes_exactly_the_braces
                                  labelled_doi_entry)))).
    vm_compute. reflexivity.
Defined.

(** X6.  The name of an author never begins or ends with white space, and
    an author without a last name, or without a first name, is printed
    under the part that is there, trimmed, without the separating space. *)
Theorem plain_name_of_partial_person (person : Person) :
  (forall c, PyStr.first_char (Renderer.plain_name person) = Some c ->
             PyStr.isspace c = false)
  /\ (forall c, PyStr.last_char (Renderer.plain_name person) = Some c ->
                PyStr.isspace c = false)
  /\ (last_names person = [] ->
      Renderer.plain_name person = PyStr.strip (hd "" (first_names person)))
  /\ (first_names person = [] ->
      Renderer.plain_name person = PyStr.strip (hd "" (last_names person))).
Proof.
  unfold Renderer.plain_name, PyStr.strip.
  destruct (strip_by_spec PyStr.isspace
              (hd "" (first_names person) +:+ " " +:+ hd "" (last_names person)))
    as (l & r & _ & _ & _ & Hfirst & Hlast).
  split; [done|]. split; [done|]. split.
  - intros ->. cbn [hd]. by rewrite strip_by_append_r.
  - intros ->. cbn [hd]. change ("" +:+ ?x) with x.
    by rewrite (strip_by_append_l _ _ " ").
Qed.

Lemma plain_name_of_partial_person_witness :
  Renderer.plain_name {| first_names := ["Plato"]; last_names := [] |} = "Plato".
Proof.
  rewrite (proj1 (proj2 (proj2 (plain_name_of_partial_person
             {| first_names := ["Plato"]; last_names := [] |}))) eq_refl).
  vm_compute. reflexivity.
Defined.

(** X7.  An author whose printed name is the highlight itself is set in
    bold, whenever that name is not empty. *)
Theorem own_name_is_highlighted (person : Person) :
  Renderer.plain_name person <> "" ->
  Renderer.format_name (Some (Renderer.plain_name person)) person
  = "**" +:+ Renderer.plain_name person +:+ "**".
Proof.
  intros Hne. unfold Renderer.format_name, Renderer.highlighted, Renderer.truthy.
  rewrite contains_refl.
  by destruct (Renderer.plain_name person).
Qed.

Lemma own_name_is_highlighted_witness :
  Renderer.format_name (Some (Renderer.plain_name jane_doe)) jane_doe
  = "**Jane Doe**".
Proof.
  rewrite (own_name_is_highlighted jane_doe); [|discriminate].
  vm_compute. reflexivity.
Defined.

Section ListingFacts.
Import Renderer.

Lemma StronglySorted_list_filter {A} (R : relation A) (f : A -> bool) (l : list A) :
  StronglySorted R l -> StronglySorted R (List.filter f l).
Proof.
  induction 1 as [|x l Hl IH Hx]; cbn; [constructor|].
  destruct (f x); [|done]. constructor; [done|].
  rewrite Forall_forall in *. intros y Hy. apply Hx.
  rewrite list_elem_of_In in *. by apply filter_In in Hy as [? _].
Qed.

Lemma filter_filter_comm {A} (f g : A -> bool) (l : list A) :
  List.filter f (List.filter g l) = List.filter g (List.filter f l).
Proof.
  induction l as [|x l IH]; [done|]. cbn.
  destruct (f x) eqn:Hf, (g x) eqn:Hg; cbn; rewrite ?Hf, ?Hg, ?IH; done.
Qed.

Lemma Permutation_list_filter {A} (f : A -> bool) (l l' : list A) :
  l ≡ₚ l' -> List.filter f l ≡ₚ List.filter f l'.
Proof.
  induction 1 as [|x l l' _ IH|x y l|l l' l'' _ IH _ IH']; cbn.
  - done.
  - destruct (f x); by rewrite IH.
  - destruct (f x), (f y); try done. apply Permutation_swap.
  - by rewrite IH.
Qed.

(** Two tests that never hold together split the elements that pass one
    of them. *)
Lemma filter_disjoint_app {A} (p q : A -> bool) (l : list A) :
  (forall x, p x = true -> q x = false) ->
  List.filter p l ++ List.filter q l ≡ₚ List.filter (fun x => p x || q x) l.
Proof.
  intros Hpq. induction l as [|x l IH]; [done|]. cbn.
  destruct (p x) eqn:Hp; cbn.
  - rewrite (Hpq x Hp). by rewrite IH.
  - destruct (q x); cbn; [|done].
    rewrite <- IH. symmetry. apply Permutation_middle.
Qed.

Lemma in_category_disjoint cat1 cat2 e :
  In cat1 categories -> In cat2 categories -> cat1 <> cat2 ->
  in_category (snd cat1) e = true -> in_category (snd cat2) e = false.
Proof.
  unfold in_category. intros H1 H2 Hne Hin1.
  destruct (in_list (PyStr.lower (type_ (snd e))) (snd cat2)) eqn:Hin2; [|done].
  apply (category_of_accepting _ cat1) in Hin1; [|done].
  apply (category_of_accepting _ cat2) in Hin2; [|done].
  congruence.
Qed.

Lemma listed_perm_filter all :
  concat (map (fun cat => cat_entries (snd cat) all) categories)
  ≡ₚ List.filter categorised all.
Proof.
  unfold categories, cat_entries. cbn [map concat snd]. rewrite app_nil_r.
  rewrite (filter_disjoint_app (in_category ["book"; "incollection"])
             (in_category ["phdthesis"; "mastersthesis"])).
  2:{ intros x. apply (in_category_disjoint ("Books and Chapters", _) ("Theses", _));
        cbn; auto 6; discriminate. }
  rewrite (filter_disjoint_app (in_category ["inproceedings"; "proceedings"])).
  2:{ intros x Hx. apply orb_false_iff. split.
      - revert Hx. apply (in_category_disjoint ("Conference Papers", _)
                            ("Books and Chapters", _)); cbn; auto 6; discriminate.
      - revert Hx. apply (in_category_disjoint ("Conference Papers", _)
                            ("Theses", _)); cbn; auto 6; discriminate. }
  rewrite (filter_disjoint_app (in_category ["article"])).
  2:{ intros x Hx. apply orb_false_iff. split; [|apply orb_false_iff; split].
      - revert Hx. apply (in_category_disjoint ("Journal Articles", _)
                            ("Conference Papers", _)); cbn; auto 6; discriminate.
      - revert Hx. apply (in_category_disjoint ("Journal Articles", _)
                            ("Books and Chapters", _)); cbn; auto 6; discriminate.
      - revert Hx. apply (in_category_disjoint ("Journal Articles", _)
                            ("Theses", _)); cbn; auto 6; discriminate. }
  erewrite filter_ext; [reflexivity|].
  intros e. unfold categorised, categories. cbn [existsb snd].
  by rewrite orb_false_r.
Qed.

Lemma listed_perm bib_data :
  listed bib_data ≡ₚ List.filter categorised (entries bib_data).
Proof.
  unfold listed. rewrite listed_perm_filter.
  apply Permutation_list_filter, sorted_desc_perm.
Qed.

Lemma is_entry_line_entry_line author_highlight e :
  is_entry_line (entry_line author_highlight e) = true.
Proof. reflexivity. Qed.

Lemma filter_entry_lines author_highlight es :
  List.filter is_entry_line (map (entry_line author_highlight) es)
  = map (entry_line author_highlight) es.
Proof.
  induction es as [|e es IH]; [done|]. cbn [map List.filter].
  by rewrite is_entry_line_entry_line, IH.
Qed.

Lemma entry_lines_of_render_category author_highlight all cat :
  List.filter is_entry_line (render_category author_highlight all cat)
  = map (entry_line author_highlight) (cat_entries (snd cat) all).
Proof.
  unfold render_category.
  destruct (cat_entries (snd cat) all) as [|e es]; [done|].
  change (heading (fst cat) :: map (entry_line author_highlight) (e :: es) ++ [nl])
    with ([heading (fst cat)] ++ map (entry_line author_highlight) (e :: es) ++ [nl]).
  rewrite !List.filter_app, filter_entry_lines. cbn [List.filter].
  change (is_entry_line (heading (fst cat))) with false.
  change (is_entry_line nl) with false. cbn [app]. by rewrite app_nil_r.
Qed.

Lemma entry_lines_of_render_bib author_highlight bib_data :
  List.filter is_entry_line (render_bib author_highlight bib_data)
  = map (entry_line author_highlight) (listed bib_data).
Proof.
  unfold render_bib, listed. generalize (all_entries bib_data) as all.
  intros all. induction categories as [|cat cats IH]; [done|].
  cbn [map concat]. rewrite List.filter_app, List.map_app, IH.
  by rewrite entry_lines_of_render_category.
Qed.

Lemma render_category_nil author_highlight all cat :
  render_category author_highlight all cat = [] <-> cat_entries (snd cat) all = [].
Proof.
  unfold render_category. by destruct (cat_entries (snd cat) all).
Qed.

Lemma in_category_categorised cat e :
  In cat categories -> in_category (snd cat) e = true -> categorised e = true.
Proof.
  intros Hcat Hin. unfold categorised. apply existsb_exists. by exists cat.
Qed.

End ListingFacts.

(** X8.  Under each heading the entries stand in descending order of the
    sort key, and entries of the same key, those of one year or those
    without a year, stand in the order they have in the file. *)
Theorem category_listing_sorted_and_stable
    (bib_data : BibliographyData) (types : list string) :
  StronglySorted (Renderer.key_ge Renderer.sort_key)
    (Renderer.cat_entries types (Renderer.all_entries bib_data))
  /\ (forall k,
         List.filter (fun e => String.eqb (Renderer.sort_key e) k)
           (Renderer.cat_entries types (Renderer.all_entries bib_data))
         = List.filter (fun e => String.eqb (Renderer.sort_key e) k)
             (Renderer.cat_entries types (entries bib_data))).
Proof.
  split.
  - apply StronglySorted_list_filter, sorted_desc_sorted.
  - intros k. unfold Renderer.cat_entries, Renderer.all_entries.
    rewrite filter_filter_comm, sorted_desc_stable.
    apply filter_filter_comm.
Qed.

(** X9.  The lines of entries in the output are, in order, the lines of
    the listed entries, and the listed entries are the parsed entries of a
    categorised type, each exactly as often as it was parsed: none is
    printed twice and none is left out. *)
Theorem every_categorised_entry_printed_once
    (bib_data : BibliographyData) (author_highlight : option string) :
  List.filter Renderer.is_entry_line (Renderer.render_bib author_highlight bib_data)
  = map (Renderer.entry_line author_highlight) (Renderer.listed bib_data)
  /\ Renderer.listed bib_data
     ≡ₚ List.filter Renderer.categorised (entries bib_data)
  /\ length (List.filter Renderer.is_entry_line
               (Renderer.render_bib author_highlight bib_data))
     = length (List.filter Renderer.categorised (entries bib_data)).
Proof.
  split; [apply entry_lines_of_render_bib|]. split; [apply listed_perm|].
  rewrite entry_lines_of_render_bib, length_map.
  apply Permutation_length, listed_perm.
Qed.

(** X10.  Nothing at all is printed for a bibliography, no heading and no
    message, exactly when none of its entries has a categorised type; the
    empty bibliography is one case. *)
Theorem render_bib_silent_iff_nothing_categorised
    (bib_data : BibliographyData) (author_highlight : option string) :
  Renderer.render_bib author_highlight bib_data = []
  <-> (forall e, In e (entries bib_data) -> Renderer.categorised e = false).
Proof.
  split.
  - intros Hnil e He.
    destruct (Renderer.categorised e) eqn:Hcat; [|done].
    assert (Hin : In e (List.filter Renderer.categorised (entries bib_data)))
      by (by apply filter_In).
    apply (Permutation_in _ (Permutation_sym (listed_perm bib_data))) in Hin.
    apply (in_map (Renderer.entry_line author_highlight)) in Hin.
    rewrite <- entry_lines_of_render_bib, Hnil in Hin. done.
  - intros Hnone. unfold Renderer.render_bib.
    assert (Hall : forall cat, In cat Renderer.categories ->
              Renderer.render_category author_highlight
                (Renderer.all_entries bib_data) cat = []).
    { intros cat Hcat. apply render_category_nil.
      destruct (Renderer.cat_entries (snd cat) (Renderer.all_entries bib_data))
        as [|e es] eqn:E; [done|].
      assert (He : In e (Renderer.cat_entries (snd cat)
                           (Renderer.all_entries bib_data)))
        by (rewrite E; by left).
      apply cat_entries_In in He as [He Hin].
      apply (Permutation_in _ (sorted_desc_perm _ _)) in He.
      specialize (Hnone e He).
      by rewrite (in_category_categorised cat e Hcat Hin) in Hnone. }
    induction Renderer.categories as [|cat cats IH]; [done|].
    cbn [map concat]. rewrite Hall by (by left).
    apply IH. intros cat' Hcat'. apply Hall. by right.
Qed.

Lemma render_bib_silent_iff_nothing_categorised_witness :
  Renderer.render_bib (Some "Doe")
    {| entries := [("c", entry_of_year "misc" (Some "2021"));
                   ("d", entry_of_year "TechReport" None)] |} = [].
Proof.
  apply render_bib_silent_iff_nothing_categorised.
  intros e [<- | [<- | []]]; vm_compute; reflexivity.
Defined.



Section HighlightFacts.
Import Renderer.

Lemma format_name_not_highlighted author_highlight person :
  highlighted author_highlight (plain_name person) = false ->
  format_name author_highlight person = plain_name person.
Proof. unfold format_name. by intros ->. Qed.

Lemma entry_line_not_highlighted author_highlight e :
  (forall person,
      In person (dict_get (persons (snd e)) "author" []) ->
      highlighted author_highlight (plain_name person) = false) ->
  entry_line author_highlight e = entry_line None e.
Proof.
  intros Hnone.
  assert (Hauthors : author_str author_highlight (snd e) = author_str None (snd e)).
  { unfold author_str. f_equal. apply map_ext_in. intros person Hperson.
    by rewrite format_name_not_highlighted by auto. }
  unfold entry_line. cbn zeta. by rewrite Hauthors.
Qed.

End HighlightFacts.

(** X12.  A highlight that is found in the name of no author of the
    bibliography changes nothing: the output is the one printed without a
    highlight. *)
Theorem unmatched_highlight_changes_nothing
    (bib_data : BibliographyData) (author_highlight : option string) :
  (forall e person,
      In e (entries bib_data) ->
      In person (dict_get (persons (snd e)) "author" []) ->
      Renderer.highlighted author_highlight (Renderer.plain_name person) = false) ->
  Renderer.render_bib author_highlight bib_data = Renderer.render_bib None bib_data.
Proof.
  intros Hnone. unfold Renderer.render_bib. f_equal.
  apply map_ext. intros cat. unfold Renderer.render_category.
  destruct (Renderer.cat_entries (snd cat) (Renderer.all_entries bib_data))
    as [|e es] eqn:E; [done|].
  rewrite <- E. do 2 f_equal.
  apply map_ext_in. intros e' He'.
  apply entry_line_not_highlighted. intros person Hperson.
  apply (Hnone e'); [|done].
  apply cat_entries_In in He' as [He' _].
  by apply (Permutation_in _ (sorted_desc_perm _ _)) in He'.
Qed.

Lemma unmatched_highlight_changes_nothing_witness :
  Renderer.render_bib (Some "Roe") one_article_bib
  = Renderer.render_bib None one_article_bib.
Proof.
  apply unmatched_highlight_changes_nothing.
  intros e person [<- | []] [<- | []]. vm_compute. reflexivity.
Defined.

(** * Further properties of the page context *)

Section EndFacts.
Import PyStr.

Lemma strip_by_layer p l t r :
  all_chars p l = true -> all_chars p r = true ->
  (forall c, first_char t = Some c -> p c = false) ->
  (forall c, last_char t = Some c -> p c = false) ->
  strip_by p (l +:+ t +:+ r) = t.
Proof. intros. apply stripped_of_unique. by exists l, r. Qed.

Lemma first_char_append_Some x y a :
  first_char x = Some a -> first_char (x +:+ y) = Some a.
Proof. by destruct x. Qed.

Lemma last_char_append_Some x y z :
  last_char y = Some z -> last_char (x +:+ y) = Some z.
Proof.
  intros Hy. induction x as [|a x IH]; [done|].
  rewrite append_cons. cbn [last_char]. by rewrite IH.
Qed.

Lemma last_char_append_Some_l x y z :
  last_char x = Some z -> exists z', last_char (x +:+ y) = Some z'.
Proof.
  intros Hx. induction x as [|a x IH] in z, Hx |- *; [done|].
  rewrite append_cons. cbn [last_char].
  destruct (last_char (x +:+ y)); eauto.
Qed.

(** A run of characters of the set [q] in front of [x] or behind it does
    not bring a character of the set [p] to that end, when no character is
    in both sets. *)
Lemma first_char_guard (p q : ascii -> bool) l x :
  all_chars q l = true ->
  (forall c, q c = true -> p c = false) ->
  (forall c, first_char x = Some c -> p c = false) ->
  forall c, first_char (l +:+ x) = Some c -> p c = false.
Proof.
  intros Hl Hqp Hx c. destruct l as [|a l]; [apply Hx|].
  rewrite append_cons. cbn in *. intros [= <-].
  apply andb_true_iff in Hl as [Ha _]. by apply Hqp.
Qed.

Lemma last_char_guard (p q : ascii -> bool) x r :
  all_chars q r = true ->
  (forall c, q c = true -> p c = false) ->
  (forall c, last_char x = Some c -> p c = false) ->
  forall c, last_char (x +:+ r) = Some c -> p c = false.
Proof.
  intros Hr Hqp Hx. induction x as [|a x IH]; intros c.
  - change ("" +:+ r) with r. clear Hx.
    induction r as [|b r IHr]; [done|]. cbn in *.
    apply andb_true_iff in Hr as [Hb Hr].
    destruct (last_char r) as [d|] eqn:Hd.
    + intros [= <-]. by apply IHr.
    + intros [= <-]. by apply Hqp.
  - rewrite append_cons. cbn [last_char].
    destruct (last_char (x +:+ r)) as [d|] eqn:Hd.
    + intros [= <-]. apply IH; [|done].
      intros c' Hc'. apply Hx. cbn [last_char]. by rewrite Hc'.
    + intros [= <-]. apply Hx. cbn [last_char].
      destruct (last_char x) as [d|] eqn:Hx'; [|done].
      destruct (last_char_append_Some_l x r d Hx') as [z' Hz']. congruence.
Qed.

End EndFacts.

Section WrapFacts.
Import PyStr.

Lemma last_char_nonempty a s : exists c, last_char (String a s) = Some c.
Proof. cbn. destruct (last_char s); eauto. Qed.

Lemma all_chars_last q r d :
  all_chars q r = true -> last_char r = Some d -> q d = true.
Proof.
  induction r as [|b r IH]; [done|]. cbn.
  intros [Hb Hr]%andb_true_iff.
  destruct (last_char r) as [e|]; intros [= <-]; auto.
Qed.

Lemma all_chars_has_char p c l :
  all_chars p l = true -> p c = false -> has_char c l = false.
Proof.
  intros Hl Hc. induction l as [|a l IH]; [done|]. cbn in *.
  apply andb_true_iff in Hl as [Ha Hl]. rewrite IH, orb_false_r by done.
  apply Ascii.eqb_neq. congruence.
Qed.

(** Wrapping a string in characters of a set [q] keeps its ends clear of
    the set [p], when no character is in both. *)
Lemma ends_clear_wrap (p q : ascii -> bool) l x r :
  all_chars q l = true -> all_chars q r = true ->
  (forall c, q c = true -> p c = false) ->
  ends_clear p x -> ends_clear p (l +:+ x +:+ r).
Proof.
  intros Hl Hr Hqp [(a & Ha & Hpa) (z & Hz & Hpz)]. split.
  - destruct l as [|b l].
    + exists a. split; [|done]. change ("" +:+ ?y) with y.
      by apply first_char_append_Some.
    + exists b. split; [done|]. apply Hqp. cbn in Hl.
      by apply andb_true_iff in Hl as [? _].
  - destruct r as [|b r].
    + exists z. split; [|done]. rewrite append_nil_r.
      by apply last_char_append_Some.
    + destruct (last_char_nonempty b r) as [d Hd]. exists d. split.
      * by do 2 apply last_char_append_Some.
      * apply Hqp. by apply (all_chars_last q (String b r)).
Qed.

Lemma strip_by_clear p l t r :
  all_chars p l = true -> all_chars p r = true -> ends_clear p t ->
  strip_by p (l +:+ t +:+ r) = t.
Proof.
  intros Hl Hr [(a & Ha & Hpa) (z & Hz & Hpz)].
  apply strip_by_layer; [done..| |]; intros c Hc; congruence.
Qed.

Lemma rstrip_by_startswith p pre s :
  all_chars (fun c => negb (p c)) pre = true ->
  startswith pre (rstrip_by p (pre +:+ s)) = true.
Proof.
  induction pre as [|a pre IH]; [intros _; apply startswith_nil|].
  cbn [all_chars]. intros [Ha Hpre]%andb_true_iff.
  apply negb_true_iff in Ha. rewrite append_cons. cbn [rstrip_by].
  rewrite Ha. cbn. by rewrite Ascii.eqb_refl, IH.
Qed.

Lemma strip_by_startswith p pre s :
  all_chars (fun c => negb (p c)) pre = true ->
  startswith pre (strip_by p (pre +:+ s)) = true.
Proof.
  intros Hpre. unfold strip_by. destruct pre as [|a pre].
  - apply startswith_nil.
  - pose proof Hpre as Hpre'. cbn [all_chars] in Hpre'.
    apply andb_true_iff in Hpre' as [Ha _]. apply negb_true_iff in Ha.
    rewrite append_cons. cbn [lstrip_by]. rewrite Ha.
    rewrite <- append_cons. by apply rstrip_by_startswith.
Qed.

Lemma split_first_at sep head rest :
  has_char sep head = false ->
  split_first sep (head +:+ String sep rest) = (head, Some rest).
Proof.
  induction head as [|a head IH].
  - intros _. change ("" +:+ ?x) with x. cbn. by rewrite Ascii.eqb_refl.
  - cbn [has_char]. intros [Ha Hhead]%orb_false_iff.
    rewrite append_cons. cbn [split_first]. by rewrite Ha, IH.
Qed.

End WrapFacts.

Section TitleMore.
Import PyStr PageContext.

Lemma plain_end_clear v a z :
  first_char v = Some a -> last_char v = Some z ->
  plain_end a = true -> plain_end z = true ->
  ends_clear isspace v /\ ends_clear (Ascii.eqb dquote) v
  /\ ends_clear (Ascii.eqb squote) v.
Proof.
  unfold plain_end. intros Ha Hz.
  intros [[Ha1 Ha2]%andb_true_iff Ha3]%andb_true_iff.
  intros [[Hz1 Hz2]%andb_true_iff Hz3]%andb_true_iff.
  apply negb_true_iff in Ha1, Ha2, Ha3, Hz1, Hz2, Hz3.
  repeat split; eauto.
Qed.

Lemma quote_not_space c :
  Ascii.eqb dquote c || Ascii.eqb squote c = true -> isspace c = false.
Proof. by intros [<-%Ascii.eqb_eq | <-%Ascii.eqb_eq]%orb_true_iff. Qed.

Lemma squote_not_dquote c :
  Ascii.eqb squote c = true -> Ascii.eqb dquote c = false.
Proof. by intros <-%Ascii.eqb_eq. Qed.

(** The three [strip] calls peel the layers one after the other. *)
Lemma strip_layers l1 l2 l3 v r3 r2 r1 a z :
  all_chars isspace l1 = true -> all_chars isspace r1 = true ->
  all_chars (Ascii.eqb dquote) l2 = true -> all_chars (Ascii.eqb dquote) r2 = true ->
  all_chars (Ascii.eqb squote) l3 = true -> all_chars (Ascii.eqb squote) r3 = true ->
  first_char v = Some a -> last_char v = Some z ->
  plain_end a = true -> plain_end z = true ->
  strip_char squote
    (strip_char dquote
       (strip (l1 +:+ l2 +:+ l3 +:+ v +:+ r3 +:+ r2 +:+ r1))) = v.
Proof.
  intros Hl1 Hr1 Hl2 Hr2 Hl3 Hr3 Ha Hz Hpa Hpz.
  destruct (plain_end_clear v a z Ha Hz Hpa Hpz) as (Hws & Hdq & Hsq).
  assert (Hdq3 : ends_clear (Ascii.eqb dquote) (l3 +:+ v +:+ r3))
    by (apply (ends_clear_wrap _ (Ascii.eqb squote)); auto using squote_not_dquote).
  assert (Hws3 : ends_clear isspace (l3 +:+ v +:+ r3)).
  { apply (ends_clear_wrap _ (Ascii.eqb squote)); auto.
    intros c Hc. apply quote_not_space. by rewrite Hc, orb_true_r. }
  assert (Hws2 : ends_clear isspace (l2 +:+ (l3 +:+ v +:+ r3) +:+ r2)).
  { apply (ends_clear_wrap _ (Ascii.eqb dquote)); auto.
    intros c Hc. apply quote_not_space. by rewrite Hc. }
  replace (l1 +:+ l2 +:+ l3 +:+ v +:+ r3 +:+ r2 +:+ r1)
    with (l1 +:+ (l2 +:+ (l3 +:+ v +:+ r3) +:+ r2) +:+ r1)
    by (by rewrite !append_assoc).
  unfold strip, strip_char.
  by rewrite !strip_by_clear.
Qed.

Lemma title_line_written indent rest :
  all_chars isspace indent = true ->
  is_title_line (indent +:+ "title:" +:+ rest) = true
  /\ split_tail ":"%char (indent +:+ "title:" +:+ rest) = Some rest.
Proof.
  intros Hindent. split.
  - unfold is_title_line, strip. rewrite strip_by_append_l by done.
    by apply strip_by_startswith.
  - unfold split_tail.
    replace (indent +:+ "title:" +:+ rest)
      with ((indent +:+ "title") +:+ String ":"%char rest)
      by (by rewrite append_assoc).
    rewrite split_first_at; [done|].
    rewrite has_char_append, (all_chars_has_char isspace) by done.
    reflexivity.
Qed.

Lemma scan_title_total lines :
  exists r,
    scan_title lines = Ok r
    /\ (r = None <-> forallb (fun l => negb (is_title_line l)) lines = true).
Proof.
  induction lines as [|line lines (r & Hr & Hnone)].
  - by exists None.
  - cbn [scan_title forallb]. destruct (is_title_line line) eqn:Hline.
    + destruct (title_value_Ok line Hline) as (rest & _ & _ & _ & ->).
      eexists. split; [reflexivity|]. by split.
    + exists r. by split.
Qed.

End TitleMore.

(** X13.  A title that is written after ["title:"], on a line indented or
    not, bare or inside single quotes, double quotes, or double quotes
    around single quotes, with white space around all of it, is returned
    exactly, provided the title itself begins and ends with a character
    that is neither white space nor a quote and no earlier line is a title
    line. *)
Theorem written_title_is_read_back
    (glob : string -> list string)
    (readlines : string -> result (list string))
    (target_file : string) (others pre post : list string)
    (indent l1 l2 l3 v r3 r2 r1 : string) (a z : ascii) :
  let line := indent +:+ "title:" +:+ l1 +:+ l2 +:+ l3 +:+ v +:+ r3 +:+ r2 +:+ r1 in
  glob "*.qmd" = target_file :: others ->
  readlines target_file = Ok (pre ++ line :: post) ->
  forallb (fun l => negb (PageContext.is_title_line l)) pre = true ->
  PyStr.all_chars PyStr.isspace (indent +:+ l1 +:+ r1) = true ->
  PyStr.all_chars (Ascii.eqb PageContext.dquote) (l2 +:+ r2) = true ->
  PyStr.all_chars (Ascii.eqb PageContext.squote) (l3 +:+ r3) = true ->
  PyStr.first_char v = Some a -> PyStr.last_char v = Some z ->
  PageContext.plain_end a = true -> PageContext.plain_end z = true ->
  PageContext.get_current_page_title glob readlines = Ok (Some v).
Proof.
  intros line Hglob Hread Hpre Hws Hdq Hsq Ha Hz Hpa Hpz.
  rewrite !all_chars_append in Hws. rewrite all_chars_append in Hdq, Hsq.
  apply andb_true_iff in Hws as [Hindent [Hl1 Hr1]%andb_true_iff].
  apply andb_true_iff in Hdq as [Hl2 Hr2].
  apply andb_true_iff in Hsq as [Hl3 Hr3].
  destruct (title_line_written indent
              (l1 +:+ l2 +:+ l3 +:+ v +:+ r3 +:+ r2 +:+ r1) Hindent)
    as [Hline Htail].
  fold line in Hline, Htail.
  unfold PageContext.get_current_page_title. rewrite Hglob, Hread.
  rewrite scan_title_first by done.
  unfold PageContext.title_value. rewrite Htail.
  by rewrite (strip_layers l1 l2 l3 v r3 r2 r1 a z).
Qed.

Lemma written_title_is_read_back_witness :
  PageContext.get_current_page_title one_page_glob (fun _ => Ok nested_quotes_page)
  = Ok (Some "Jane Doe").
Proof.
  refine (written_title_is_read_back one_page_glob (fun _ => Ok nested_quotes_page)
            "index.qmd" [] ["---" +:+ nl]
            ["title: Somebody Else" +:+ nl; "---" +:+ nl]
            "  " " " (String PageContext.dquote "") (String PageContext.squote "")
            "Jane Doe"
            (String PageContext.squote "") (String PageContext.dquote "") nl
            "J"%char "e"%char _ _ _ _ _ _ _ _ _ _); reflexivity.
Defined.

(** X14.  Without a markup file the title is absent; with one that can be
    read, looking for the title never fails, and the title is absent
    exactly when no line of the first file is a title line.  The other
    markup files are not consulted. *)
Theorem page_title_absent_iff_no_title_line
    (glob : string -> list string)
    (readlines : string -> result (list string)) :
  (glob "*.qmd" = [] ->
   PageContext.get_current_page_title glob readlines = Ok None)
  /\ (forall target_file others lines,
         glob "*.qmd" = target_file :: others ->
         readlines target_file = Ok lines ->
         (exists title,
             PageContext.get_current_page_title glob readlines = Ok title)
         /\ (PageContext.get_current_page_title glob readlines = Ok None
             <-> forallb (fun l => negb (PageContext.is_title_line l)) lines = true)).
Proof.
  unfold PageContext.get_current_page_title. split.
  - by intros ->.
  - intros target_file others lines -> ->.
    destruct (scan_title_total lines) as (r & -> & Hnone).
    split; [by exists r|]. rewrite <- Hnone. split; congruence.
Qed.

Lemma page_title_absent_iff_no_title_line_witness :
  PageContext.get_current_page_title one_page_glob
    (fun _ => Ok ["---" +:+ nl; "Title: Jane Doe" +:+ nl; "---" +:+ nl])
  = Ok None.
Proof.
  apply (proj2 (page_title_absent_iff_no_title_line one_page_glob _)
           "index.qmd" [] _ eq_refl eq_refl).
  reflexivity.
Defined.



(** X16.  A bibliography file that is gone when its turn comes costs one
    message and nothing more: what is printed for the files before it and
    after it is what [render_pubs] prints for each of them, in the order of
    the listing, with the title of the page as highlight. *)
Theorem render_auto_goes_on_after_missing_file
    (glob : string -> list string) (path_exists : string -> bool)
    (readlines : string -> result (list string))
    (parse_string : string -> result BibliographyData)
    (clean_name : option string) (before after : list string) (bib : string) :
  PageContext.get_current_page_title glob readlines = Ok clean_name ->
  glob "*.bib" = before ++ bib :: after ->
  path_exists bib = false ->
  PageContext.render_auto glob path_exists readlines parse_string
  = Ok (concat (map (fun b => Renderer.render_pubs path_exists readlines
                                parse_string b clean_name) before)
        ++ ["**Error:** Could not find bibliography file: `" +:+ bib +:+ "`"]
        ++ concat (map (fun b => Renderer.render_pubs path_exists readlines
                                   parse_string b clean_name) after)).
Proof.
  intros Htitle Hglob Hmissing. unfold PageContext.render_auto.
  rewrite Htitle, Hglob.
  assert (Hlist : forall (l : list string) (k : list string -> result (list string)),
            l <> [] ->
            match l with [] => Ok ["*No bibliography found in this folder.*"]
                    | _ => k l end = k l)
    by (by intros [|? ?]).
  transitivity (Ok (concat (map (fun b => Renderer.render_pubs path_exists
                       readlines parse_string b clean_name)
                     (before ++ bib :: after)))).
  { by destruct before. }
  f_equal. rewrite List.map_app, concat_app. f_equal. cbn [map concat].
  f_equal. unfold Renderer.render_pubs at 1. by rewrite Hmissing.
Qed.

Lemma render_auto_goes_on_after_missing_file_witness :
  PageContext.render_auto two_bib_glob one_article_exists two_bib_readlines
    one_article_parser
  = Ok [ "**Error:** Could not find bibliography file: `gone.bib`";
         "### Journal Articles";
         "1. **Jane Doe** (2020). **A Study.** *Nature*. [[Link](https://doi.org/10.1/xyz)]";
         nl ].
Proof.
  rewrite (render_auto_goes_on_after_missing_file two_bib_glob one_article_exists
             two_bib_readlines one_article_parser (Some "Jane Doe")
             [] ["refs.bib"] "gone.bib"); [| vm_compute; reflexivity ..].
  vm_compute. reflexivity.
Defined.
